(** * Headless mesh exporters: [blender_export.py] and [maya_export.py]

    Both scripts are straight-line sequences of calls into a host
    application (Blender's [bpy], Maya's [maya.cmds]) wrapped in Python
    [try]/[except]/[finally].  The host is closed source, so it is kept
    abstract: a deterministic machine that answers every API call with a
    value or with an exception.  The scripts are embedded as functions in
    a small monad that threads the host state, records every host call
    together with its answer, and collects the lines written by [print]. *)

From Stdlib Require Import List String Ascii ZArith Bool Lia DecimalString.
Import ListNotations.
Local Open Scope list_scope.
Local Open Scope string_scope.

(** ** Python exceptions and results *)

Module Py.

(** The part of Python's exception hierarchy the scripts can tell apart:
    [sys.exit(n)] raises [SystemExit], which is a [BaseException] but not
    an [Exception]; [BaseExc] stands for the other classes outside
    [Exception] ([KeyboardInterrupt], [GeneratorExit]); [Exc] is any class
    derived from [Exception], with its class name and [str(e)]. *)
Inductive py_exc : Type :=
| SystemExit (code : Z)
| BaseExc (cls msg : string)
| Exc (cls msg : string).

(** [isinstance(e, Exception)], the test made by [except Exception]. *)
Definition isinstance_Exception (e : py_exc) : bool :=
  match e with
  | Exc _ _ => true
  | _ => false
  end.

(** [str(e)]. *)
Definition str (e : py_exc) : string :=
  match e with
  | SystemExit c => NilZero.string_of_int (Z.to_int c)
  | BaseExc _ m => m
  | Exc _ m => m
  end.

Inductive res (A : Type) : Type :=
| Ret (a : A)
| Raise (e : py_exc).
Arguments Ret {A} a.
Arguments Raise {A} e.

(** How the interpreter ends once the module body has run: falling off the
    end, [SystemExit] reaching the top level (the process exits with that
    code), or any other exception reaching the top level. *)
Inductive outcome : Type :=
| Finished
| Exited (code : Z)
| Uncaught (e : py_exc).

Definition toplevel {A : Type} (r : res A) : outcome :=
  match r with
  | Ret _ => Finished
  | Raise (SystemExit c) => Exited c
  | Raise e => Uncaught e
  end.

(** Python lists: [l[i]] and [l.index(x)]. *)
Definition index_error : py_exc :=
  Exc "IndexError" "list index out of range".

Definition getitem {A : Type} (l : list A) (i : nat) : res A :=
  match nth_error l i with
  | Some a => Ret a
  | None => Raise index_error
  end.

Fixpoint find_index (x : string) (l : list string) : option nat :=
  match l with
  | [] => None
  | y :: l' => if String.eqb y x then Some 0
               else option_map S (find_index x l')
  end.

Definition list_index (x : string) (l : list string) : res nat :=
  match find_index x l with
  | Some i => Ret i
  | None => Raise (Exc "ValueError" ("'" ++ x ++ "' is not in list"))
  end.

Section Script.

(** The host API: the calls a script can make, the type of each call's
    answer, and the host's state. *)
Context {call : Type} {ret_ty : call -> Type} {W : Type}.

Definition host_t : Type := forall c : call, W -> res (ret_ty c) * W.

(** One host call with the answer it got. *)
Record event : Type := Ev { ev_call : call; ev_res : res (ret_ty ev_call) }.

(** What a piece of script has done when it stops. *)
Record out (A : Type) : Type := Out {
  result : res A;
  world : W;
  events : list event;
  printed : list string
}.
Arguments Out {A} _ _ _ _.
Arguments result {A} _.
Arguments world {A} _.
Arguments events {A} _.
Arguments printed {A} _.

Definition M (A : Type) : Type := W -> out A.

Definition ret {A : Type} (a : A) : M A :=
  fun w => Out (Ret a) w [] [].

Definition raise {A : Type} (e : py_exc) : M A :=
  fun w => Out (Raise e) w [] [].

Definition lift {A : Type} (r : res A) : M A :=
  fun w => Out r w [] [].

(** [o] with the calls [evs] and the lines [pr] that came before it. *)
Definition after {A : Type} (evs : list event) (pr : list string)
  (o : out A) : out A :=
  Out (result o) (world o) (evs ++ events o) (pr ++ printed o).

Definition bind {A B : Type} (m : M A) (f : A -> M B) : M B :=
  fun w =>
    let o := m w in
    match result o with
    | Ret a => after (events o) (printed o) (f a (world o))
    | Raise e => Out (Raise e) (world o) (events o) (printed o)
    end.

(** [print(s)]. *)
Definition print (s : string) : M unit :=
  fun w => Out (Ret tt) w [] [s].

(** [sys.exit(n)]. *)
Definition sys_exit {A : Type} (n : Z) : M A := raise (SystemExit n).

Variable host : host_t.

Definition hcall (c : call) : M (ret_ty c) :=
  fun w =>
    let rw := host c w in
    Out (fst rw) (snd rw) [Ev c (fst rw)] [].

(** [try: body  except Exception as e: handler e]. *)
Definition try_except {A : Type} (body : M A) (handler : py_exc -> M A)
  : M A :=
  fun w =>
    let o := body w in
    match result o with
    | Ret a => o
    | Raise e =>
        if isinstance_Exception e
        then after (events o) (printed o) (handler e (world o))
        else o
    end.

(** [try: body  finally: fin]: [fin] runs however [body] ends; when [fin]
    itself raises, that exception replaces the pending one. *)
Definition try_finally {A : Type} (body : M A) (fin : M unit) : M A :=
  fun w =>
    let o := body w in
    let o' := after (events o) (printed o) (fin (world o)) in
    Out (match result o' with
         | Ret _ => result o
         | Raise e' => Raise e'
         end)
        (world o') (events o') (printed o').

(** [for x in l: acc = body acc x]. *)
Fixpoint for_fold {A B : Type} (body : B -> A -> M B) (l : list A) (acc : B)
  : M B :=
  match l with
  | [] => ret acc
  | x :: l' => bind (body acc x) (fun acc' => for_fold body l' acc')
  end.

(** The observable behaviour of a whole process. *)
Record run : Type := Run {
  exit : outcome;
  stdout : list string;
  trace : list event
}.

Definition exec {A : Type} (m : M A) (w : W) : run :=
  let o := m w in Run (toplevel (result o)) (printed o) (events o).

(** *** Reading a trace *)

(** The calls that raised, each with its exception, in order. *)
Definition raised (t : list event) : list (call * py_exc) :=
  flat_map (fun ev => match ev_res ev with
                      | Raise e => [(ev_call ev, e)]
                      | Ret _ => []
                      end) t.

(** The values picked by [sel] from the events of a trace, in order. *)
Definition answers {A : Type} (sel : event -> option A) (t : list event)
  : list A :=
  flat_map (fun ev => match sel ev with
                      | Some a => [a]
                      | None => []
                      end) t.

(** How many calls of a trace satisfy [p]. *)
Definition count_calls (p : call -> bool) (t : list event) : nat :=
  List.length (filter (fun ev => p (ev_call ev)) t).

(** The calls of a trace that satisfy [p], with their arguments, in
    order. *)
Definition calls_where (p : call -> bool) (t : list event) : list call :=
  filter p (map ev_call t).

(** *** Properties of script fragments *)

(** [m] writes nothing to standard output. *)
Definition silent {A : Type} (m : M A) : Prop :=
  forall w, printed (m w) = [].

(** [m] makes only host calls satisfying [p]. *)
Definition emits {A : Type} (p : call -> bool) (m : M A) : Prop :=
  forall w, Forall (fun ev => p (ev_call ev) = true) (events (m w)).

(** [m] stops at the first host call that raises and lets that exception
    through: a run that returns saw no call raise, a run that raises [e]
    saw exactly one call raise, with [e]. *)
Definition transparent {A : Type} (m : M A) : Prop :=
  forall w,
    match result (m w) with
    | Ret _ => raised (events (m w)) = []
    | Raise e => exists c, raised (events (m w)) = [(c, e)]
    end.

(** A host that answers the calls satisfying [p] with the exception [e]
    and is [h] otherwise. *)
Definition failing_at (p : call -> bool) (e : py_exc) (h : host_t)
  : host_t :=
  fun c w => if p c then (Raise e, w) else h c w.

End Script.

Arguments Out {call ret_ty W A} _ _ _ _.
Arguments after {call ret_ty W A} _ _ _.
Arguments result {call ret_ty W A} _.
Arguments world {call ret_ty W A} _.
Arguments events {call ret_ty W A} _.
Arguments printed {call ret_ty W A} _.
Arguments event : clear implicits.
Arguments out : clear implicits.
Arguments M : clear implicits.
Arguments run : clear implicits.
Arguments host_t : clear implicits.

End Py.

Declare Scope py_scope.
Delimit Scope py_scope with py.
Notation "x <- m ;; k" := (Py.bind m (fun x => k))
  (at level 61, m at next level, right associativity) : py_scope.
Notation "m ;; k" := (Py.bind m (fun _ => k))
  (at level 61, right associativity) : py_scope.

(** ** [json.dumps]

    The standard library's encoder with its defaults: separators [", "]
    and [": "], [ensure_ascii=True], keys in insertion order.  A Python
    [str] is a [string] of code points below 256. *)

Module Json.

(** The values the scripts put in a dict: [True]/[False], an [int], a
    [str]. *)
Inductive value : Type :=
| JBool (b : bool)
| JInt (z : Z)
| JStr (s : string).

Definition hex_digit (n : N) : ascii :=
  ascii_of_N (if (n <? 10)%N then 48 + n else 87 + n)%N.

(** ['\\u{0:04x}'.format(n)] for [n < 256]. *)
Definition u_escape (n : N) : string :=
  String "\" (String "u" (String "0" (String "0"
    (String (hex_digit (n / 16))
       (String (hex_digit (n mod 16)) EmptyString))))).

(** [ESCAPE_ASCII]/[ESCAPE_DCT] of [json.encoder]: the printable ASCII
    characters other than the quote and the backslash stand for
    themselves. *)
Definition escape_char (c : ascii) : string :=
  let n := N_of_ascii c in
  if (n =? 34)%N then String "\" (String c EmptyString)
  else if (n =? 92)%N then String "\" (String c EmptyString)
  else if (n =? 8)%N then String "\" "b"
  else if (n =? 12)%N then String "\" "f"
  else if (n =? 10)%N then String "\" "n"
  else if (n =? 13)%N then String "\" "r"
  else if (n =? 9)%N then String "\" "t"
  else if ((32 <=? n) && (n <=? 126))%N then String c EmptyString
  else u_escape n.

Fixpoint escape (s : string) : string :=
  match s with
  | EmptyString => EmptyString
  | String c s' => escape_char c ++ escape s'
  end.

Definition quote : string := String (ascii_of_N 34) EmptyString.

Definition dumps_str (s : string) : string := quote ++ escape s ++ quote.

Definition dumps_int (z : Z) : string := NilZero.string_of_int (Z.to_int z).

Definition dumps_value (v : value) : string :=
  match v with
  | JBool true => "true"
  | JBool false => "false"
  | JInt z => dumps_int z
  | JStr s => dumps_str s
  end.

Fixpoint dumps_items (l : list (string * value)) : string :=
  match l with
  | [] => EmptyString
  | (k, v) :: l' =>
      dumps_str k ++ ": " ++ dumps_value v ++
      match l' with
      | [] => EmptyString
      | _ :: _ => ", " ++ dumps_items l'
      end
  end.

(** [json.dumps(d)] for a dict [d] of such values, keys in insertion
    order. *)
Definition dumps (d : list (string * value)) : string :=
  "{" ++ dumps_items d ++ "}".

End Json.

(** The two status lines both scripts write. *)

(** [json.dumps({"error": msg})]. *)
Definition error_line (msg : string) : string :=
  Json.dumps [("error", Json.JStr msg)].

(** ["EXPORT_RESULT:" + json.dumps(stats)]. *)
Definition stats (mesh_count : nat) (output_path : string) (file_size : Z)
  : list (string * Json.value) :=
  [("success", Json.JBool true);
   ("meshCount", Json.JInt (Z.of_nat mesh_count));
   ("outputPath", Json.JStr output_path);
   ("fileSize", Json.JInt file_size)].

Definition success_line (mesh_count : nat) (output_path : string)
  (file_size : Z) : string :=
  "EXPORT_RESULT:" ++ Json.dumps (stats mesh_count output_path file_size).

Definition no_mesh_msg : string := "No mesh objects found in file".

(** A character that is printable ASCII (space to tilde), and a string
    made of such characters only: it holds no line break and no control
    character. *)
Definition printable (c : ascii) : bool :=
  ((32 <=? N_of_ascii c) && (N_of_ascii c <=? 126))%N.

Fixpoint one_line (s : string) : bool :=
  match s with
  | EmptyString => true
  | String c s' => printable c && one_line s'
  end.

Definition is_success_line (l : string) : Prop :=
  exists n p z, l = success_line n p z.

Definition is_error_line (l : string) : Prop :=
  exists msg, l = error_line msg.

(** A run that counts as successful: the process ended normally, or the
    success record is on standard output. *)
Definition succeeded {call : Type} {ret_ty : call -> Type}
  (r : Py.run call ret_ty) : Prop :=
  Py.exit r = Py.Finished \/
  exists l, In l (Py.stdout r) /\ String.prefix "EXPORT_RESULT:" l = true.

(** The standard output protocol: one line, and the process ends in one
    of two ways, each with its record: normally, with the success record
    on standard output, or by [sys.exit(1)], with an error record.  A run
    that ends on an uncaught exception does not follow the protocol,
    whatever it printed. *)
Definition one_status_line {call : Type} {ret_ty : call -> Type}
  (r : Py.run call ret_ty) : Prop :=
  exists l,
    Py.stdout r = [l] /\
    ((Py.exit r = Py.Finished /\ is_success_line l) \/
     (Py.exit r = Py.Exited 1 /\ is_error_line l)).


(** ** [blender_export.py] *)

Module Blender.

Import Py.

(** A scene object: its name and its [type] attribute (['MESH'],
    ['CAMERA'], ['LIGHT'], ...). *)
Record Obj : Type := { ob_name : string; ob_type : string }.

(** A handle on a scene datablock. *)
Definition Scene : Type := string.

(** The keyword arguments of [bpy.ops.export_scene.gltf]. *)
Record gltf_args : Type := {
  filepath : string;
  export_format : string;
  use_selection : bool;
  export_apply : bool;
  export_materials : string;
  export_colors : bool;
  export_normals : bool;
  export_tangents : bool;
  export_yup : bool
}.

(** The host operations the script performs, in the order of the
    source. *)
Inductive call : Type :=
| ReadFactorySettings (use_empty : bool)
| LibrariesLoad (path : string) (link : bool)
| ContextScene
| CollectionLink (scene : Scene) (obj : Obj)
| SelectAll (action : string)
| SceneObjects (scene : Scene)
| SelectSet (obj : Obj) (state : bool)
| OpenMainfile (path : string)
| TransformApply (location rotation scale : bool)
| ExportGltf (args : gltf_args)
| OsPathGetsize (path : string).

Definition ret_ty (c : call) : Type :=
  match c with
  | LibrariesLoad _ _ => list (option Obj)
  | ContextScene => Scene
  | SceneObjects _ => list Obj
  | OsPathGetsize _ => Z
  | _ => unit
  end.

Definition event : Type := Py.event call ret_ty.
Definition host_t (W : Type) : Type := Py.host_t call ret_ty W.
Definition M (W : Type) (A : Type) : Type := Py.M call ret_ty W A.

Section Script.

Context {W : Type} (host : host_t W).

Local Open Scope py_scope.

(** Lines 20-22: link every loaded object that is not [None]. *)
Definition link_objects (scene : Scene) (objects : list (option Obj))
  : M W unit :=
  for_fold (fun _ obj =>
              match obj with
              | Some o => hcall host (CollectionLink scene o)
              | None => ret tt
              end) objects tt.

(** Lines 27-30 and 35-38: select the objects of type ['MESH'], adding
    one to [mesh_count] for each. *)
Definition select_meshes (objects : list Obj) (mesh_count : nat)
  : M W nat :=
  for_fold (fun n obj =>
              if String.eqb (ob_type obj) "MESH"
              then hcall host (SelectSet obj true) ;; ret (S n)
              else ret n) objects mesh_count.

Definition gltf_options (output_path : string) : gltf_args :=
  {| filepath := output_path;
     export_format := "GLB";
     use_selection := false;
     export_apply := true;
     export_materials := "EXPORT";
     export_colors := true;
     export_normals := true;
     export_tangents := false;
     export_yup := true |}.

(** Lines 12-67, the body of the [try]. *)
Definition try_body (input_path output_path : string) : M W unit :=
  data_to_objects <- hcall host (LibrariesLoad input_path false) ;;
  scene <- hcall host ContextScene ;;
  link_objects scene data_to_objects ;;
  hcall host (SelectAll "DESELECT") ;;
  objects <- hcall host (SceneObjects scene) ;;
  mesh_count <- select_meshes objects 0 ;;
  mesh_count <- (if Nat.eqb mesh_count 0 then
                   hcall host (OpenMainfile input_path) ;;
                   scene' <- hcall host ContextScene ;;
                   objects' <- hcall host (SceneObjects scene') ;;
                   select_meshes objects' mesh_count
                 else ret mesh_count) ;;
  (if Nat.eqb mesh_count 0 then
     print (error_line no_mesh_msg) ;; sys_exit 1
   else ret tt) ;;
  hcall host (TransformApply true true true) ;;
  hcall host (ExportGltf (gltf_options output_path)) ;;
  file_size <- hcall host (OsPathGetsize output_path) ;;
  print (success_line mesh_count output_path file_size).

(** Lines 69-71. *)
Definition except_handler (e : py_exc) : M W unit :=
  print (error_line (str e)) ;; sys_exit 1.

Definition export_to_glb (input_path output_path : string) : M W unit :=
  hcall host (ReadFactorySettings true) ;;
  try_except (try_body input_path output_path) except_handler.

Definition usage_msg : string :=
  "Usage: blender --python script.py -- input.blend output.glb".

(** Lines 73-83, with [sys.argv] as the argument. *)
Definition main (argv : list string) : M W unit :=
  (if Nat.ltb (List.length argv) 4 then
     print (error_line usage_msg) ;; sys_exit 1
   else ret tt) ;;
  i <- lift (list_index "--" argv) ;;
  let args := skipn (i + 1) argv in
  input_file <- lift (getitem args 0) ;;
  output_file <- lift (getitem args 1) ;;
  export_to_glb input_file output_file.

Definition run_script (argv : list string) (w : W) : Py.run call ret_ty :=
  exec (main argv) w.

(** One call of [export_to_glb]. *)
Definition run_export (input_path output_path : string) (w : W)
  : Py.run call ret_ty :=
  exec (export_to_glb input_path output_path) w.

End Script.

(** *** Reading a trace of the GLB exporter *)

Definition is_mesh (o : Obj) : bool := String.eqb (ob_type o) "MESH".

(** Number of mesh-typed objects of a scene listing. *)
Definition count_mesh (l : list Obj) : nat := List.length (filter is_mesh l).

(** The objects of [data_to.objects] that line 21 lets through
    ([if obj is not None]). *)
Definition loaded (objects : list (option Obj)) : list Obj :=
  flat_map (fun x => match x with Some o => [o] | None => [] end) objects.

(** The answers of the scene listings ([scene.objects]) that returned. *)
Definition scene_answer (ev : event) : option (list Obj) :=
  match ev with
  | Ev c r =>
      match c as c0 return res (ret_ty c0) -> option (list Obj) with
      | SceneObjects _ =>
          fun r0 => match r0 with Ret l => Some l | Raise _ => None end
      | _ => fun _ => None
      end r
  end.

Definition scene_answers (t : list event) : list (list Obj) :=
  answers scene_answer t.

(** The sizes answered by [os.path.getsize]. *)
Definition getsize_answer (ev : event) : option Z :=
  match ev with
  | Ev c r =>
      match c as c0 return res (ret_ty c0) -> option Z with
      | OsPathGetsize _ =>
          fun r0 => match r0 with Ret z => Some z | Raise _ => None end
      | _ => fun _ => None
      end r
  end.

(** The paths given to [bpy.ops.wm.open_mainfile], whether the call
    returned or raised. *)
Definition open_arg (ev : event) : option string :=
  match ev_call ev with
  | OpenMainfile p => Some p
  | _ => None
  end.

Definition opened (t : list event) : list string := answers open_arg t.

Definition is_reset (c : call) : bool :=
  match c with ReadFactorySettings _ => true | _ => false end.

Definition is_open_mainfile (c : call) : bool :=
  match c with OpenMainfile _ => true | _ => false end.

Definition is_export (c : call) : bool :=
  match c with ExportGltf _ => true | _ => false end.

Definition is_getsize (c : call) : bool :=
  match c with OsPathGetsize _ => true | _ => false end.

Definition is_link (c : call) : bool :=
  match c with CollectionLink _ _ => true | _ => false end.

Definition is_select_set (c : call) : bool :=
  match c with SelectSet _ _ => true | _ => false end.

(** What the two loops (linking, selecting) leave in a trace: nothing the
    observations above look at. *)
Record loop_trace (t : list event) : Prop := {
  lt_scene : scene_answers t = [];
  lt_getsize : answers getsize_answer t = [];
  lt_reset : count_calls is_reset t = 0;
  lt_open : opened t = [];
  lt_export : count_calls is_export t = 0;
  lt_size : count_calls is_getsize t = 0
}.

(** The three ways the body of the [try] can end: it printed the success
    record; it found no mesh, printed the error and called [sys.exit(1)];
    a host call raised. *)
Inductive body_cases {W : Type} (input_path output_path : string)
  (o : out call ret_ty W unit) : Prop :=
| body_success (n : nat) (z : Z) (objs : list Obj) :
    result o = Ret tt ->
    (scene_answers (events o) = [objs] /\ opened (events o) = []) \/
    (exists objs0, scene_answers (events o) = [objs0; objs] /\
                   count_mesh objs0 = 0 /\
                   opened (events o) = [input_path]) ->
    printed o = [success_line n output_path z] ->
    raised (events o) = [] ->
    n <> 0 -> count_mesh objs = n ->
    answers getsize_answer (events o) = [z] ->
    count_calls is_export (events o) = 1 ->
    body_cases input_path output_path o
| body_no_mesh (objs0 objs : list Obj) :
    result o = Raise (SystemExit 1) ->
    scene_answers (events o) = [objs0; objs] ->
    printed o = [error_line no_mesh_msg] ->
    raised (events o) = [] ->
    count_mesh objs0 = 0 -> count_mesh objs = 0 ->
    opened (events o) = [input_path] ->
    count_calls is_export (events o) = 0 ->
    count_calls is_getsize (events o) = 0 ->
    body_cases input_path output_path o
| body_failed (c : call) (e : py_exc) :
    result o = Raise e ->
    printed o = [] ->
    raised (events o) = [(c, e)] ->
    (opened (events o) = [] /\
     (scene_answers (events o) = [] \/
      exists objs, scene_answers (events o) = [objs] /\
                   count_mesh objs <> 0)) \/
    (opened (events o) = [input_path] /\
     exists objs0,
       (scene_answers (events o) = [objs0] \/
        exists objs, scene_answers (events o) = [objs0; objs] /\
                     count_mesh objs <> 0) /\
       count_mesh objs0 = 0) ->
    body_cases input_path output_path o.

(** The positional arguments of the script: what follows the first
    ["--"] on the command line (nothing when there is no ["--"]). *)
Fixpoint script_args (argv : list string) : list string :=
  match argv with
  | [] => []
  | a :: argv' => if String.eqb a "--" then argv' else script_args argv'
  end.

(** *** A reference host

    A small Blender: the state is the list of objects of the scene.  A
    [.blend] file is what a library load finds in it, what opening it as
    the main file puts in the scene, and the size of the GLB written from
    it. *)
Record blend_file : Type := {
  library_objects : list (option Obj);
  main_objects : list Obj;
  glb_size : Z
}.

Definition sim (f : blend_file) : host_t (list Obj) :=
  fun c =>
    match c as c0 return list Obj -> res (ret_ty c0) * list Obj with
    | ReadFactorySettings _ => fun _ => (Ret tt, [])
    | LibrariesLoad _ _ => fun scene => (Ret (library_objects f), scene)
    | ContextScene => fun scene => (Ret "Scene", scene)
    | CollectionLink _ o => fun scene => (Ret tt, (scene ++ [o])%list)
    | SelectAll _ => fun scene => (Ret tt, scene)
    | SceneObjects _ => fun scene => (Ret scene, scene)
    | SelectSet _ _ => fun scene => (Ret tt, scene)
    | OpenMainfile _ => fun _ => (Ret tt, main_objects f)
    | TransformApply _ _ _ => fun scene => (Ret tt, scene)
    | ExportGltf _ => fun scene => (Ret tt, scene)
    | OsPathGetsize _ => fun scene => (Ret (glb_size f), scene)
    end.

Definition cube : Obj := {| ob_name := "Cube"; ob_type := "MESH" |}.
Definition camera : Obj := {| ob_name := "Camera"; ob_type := "CAMERA" |}.
Definition lamp : Obj := {| ob_name := "Light"; ob_type := "LIGHT" |}.

(** A file with one mesh, found by the library load. *)
Definition cube_file : blend_file :=
  {| library_objects := [Some camera; None; Some cube];
     main_objects := [camera; cube];
     glb_size := 1024 |}.

(** A file whose mesh is only found by opening it. *)
Definition main_only_file : blend_file :=
  {| library_objects := [Some camera];
     main_objects := [cube; lamp; cube];
     glb_size := 2048 |}.

(** A file without any mesh. *)
Definition empty_file : blend_file :=
  {| library_objects := [Some camera];
     main_objects := [camera; lamp];
     glb_size := 0 |}.

Definition blender_argv : list string :=
  ["blender"; "--background"; "--python"; "blender_export.py"; "--";
   "in.blend"; "out.glb"].

(** The same command line without the output path. *)
Definition short_argv : list string :=
  ["blender"; "--background"; "--python"; "blender_export.py"; "--";
   "in.blend"].

(** What [sys.argv.index("--")] raises when there is no ["--"]. *)
Definition value_error : py_exc := Exc "ValueError" "'--' is not in list".

(** A host whose factory reset fails, and one whose exporter fails. *)
Definition reset_fails : host_t (list Obj) :=
  failing_at is_reset (Exc "RuntimeError" "Error: factory reset failed")
    (sim cube_file).

Definition export_fails : host_t (list Obj) :=
  failing_at is_export (Exc "RuntimeError" "Error: export failed")
    (sim cube_file).

(** A host on which the size of the written file cannot be read. *)
Definition size_fails : host_t (list Obj) :=
  failing_at is_getsize (Exc "FileNotFoundError" "No such file: out.glb")
    (sim cube_file).

End Blender.

(** ** [maya_export.py] *)

Module Maya.

Import Py.

(** The host operations the script performs.  [FileOpen] is
    [cmds.file(path, open=True, force=...)] and [FileExport] is
    [cmds.file(path, exportSelected=..., type=..., force=..., options=...)]. *)
Inductive call : Type :=
| StandaloneInitialize
| FileOpen (path : string) (force : bool)
| Ls (type : string)
| ListRelatives (node : string) (parent : bool)
| Select (nodes : list string)
| FileExport (path : string) (exportSelected : bool) (type : string)
    (force : bool) (options : string)
| OsPathExists (path : string)
| OsPathGetsize (path : string)
| StandaloneUninitialize.

(** [cmds.listRelatives] answers [None] when there is nothing to list. *)
Definition ret_ty (c : call) : Type :=
  match c with
  | Ls _ => list string
  | ListRelatives _ _ => option (list string)
  | OsPathExists _ => bool
  | OsPathGetsize _ => Z
  | _ => unit
  end.

Definition event : Type := Py.event call ret_ty.
Definition host_t (W : Type) : Type := Py.host_t call ret_ty W.
Definition M (W : Type) (A : Type) : Type := Py.M call ret_ty W A.

(** Truth value of a list and of an optional list ([None] and [[]] are
    false). *)
Definition truthy {A : Type} (l : list A) : bool :=
  match l with
  | [] => false
  | _ :: _ => true
  end.

Definition truthy_opt {A : Type} (o : option (list A)) : bool :=
  match o with
  | Some l => truthy l
  | None => false
  end.

(** [transforms.extend(parent)] under [if parent:]. *)
Definition extend_if (transforms : list string)
  (parent : option (list string)) : list string :=
  match parent with
  | Some (x :: l) => (transforms ++ x :: l)%list
  | _ => transforms
  end.

Definition obj_options : string :=
  "groups=1;ptgroups=1;materials=1;smoothing=1;normals=1".

Section Script.

Context {W : Type} (host : host_t W).

Local Open Scope py_scope.

(** Lines 24-28: collect the parents of every mesh shape. *)
Definition collect_transforms (meshes : list string) : M W (list string) :=
  for_fold (fun transforms mesh =>
              parent <- hcall host (ListRelatives mesh true) ;;
              ret (extend_if transforms parent)) meshes [].

(** Lines 13-48, the body of the [try]. *)
Definition try_body (input_path output_path : string) : M W unit :=
  hcall host (FileOpen input_path true) ;;
  meshes <- hcall host (Ls "mesh") ;;
  (if negb (truthy meshes) then
     print (error_line no_mesh_msg) ;; sys_exit 1
   else ret tt) ;;
  transforms <- collect_transforms meshes ;;
  (if truthy transforms then hcall host (Select transforms) else ret tt) ;;
  hcall host (FileExport output_path true "OBJexport" true obj_options) ;;
  output_exists <- hcall host (OsPathExists output_path) ;;
  file_size <- (if (output_exists : bool)
                then hcall host (OsPathGetsize output_path)
                else ret 0%Z) ;;
  print (success_line (List.length meshes) output_path file_size).

(** Lines 50-52. *)
Definition except_handler (e : py_exc) : M W unit :=
  print (error_line (str e)) ;; sys_exit 1.

Definition export_to_obj (input_path output_path : string) : M W unit :=
  try_finally
    (try_except (try_body input_path output_path) except_handler)
    (hcall host StandaloneUninitialize).

(** The module body: line 3 runs at import, lines 56-59 under
    [__main__], with [sys.argv] as the argument. *)
Definition main (argv : list string) : M W unit :=
  hcall host StandaloneInitialize ;;
  input_file <- lift (getitem argv 1) ;;
  output_file <- lift (getitem argv 2) ;;
  export_to_obj input_file output_file.

Definition run_script (argv : list string) (w : W) : Py.run call ret_ty :=
  exec (main argv) w.

(** One call of [export_to_obj]. *)
Definition run_export (input_path output_path : string) (w : W)
  : Py.run call ret_ty :=
  exec (export_to_obj input_path output_path) w.

(** The loop of lines 24-28 started from any list, for induction on the
    mesh shapes. *)
Definition collect_from (meshes : list string) (acc : list string)
  : M W (list string) :=
  for_fold (fun transforms mesh =>
              parent <- hcall host (ListRelatives mesh true) ;;
              ret (extend_if transforms parent)) meshes acc.

End Script.

(** *** Reading a trace of the OBJ exporter *)

Definition ls_answer (ev : event) : option (list string) :=
  match ev with
  | Ev c r =>
      match c as c0 return res (ret_ty c0) -> option (list string) with
      | Ls _ => fun r0 => match r0 with Ret l => Some l | Raise _ => None end
      | _ => fun _ => None
      end r
  end.

(** The answers of the [cmds.ls] queries that returned. *)
Definition ls_answers (t : list event) : list (list string) :=
  answers ls_answer t.

Definition relatives_answer (ev : event) : option (option (list string)) :=
  match ev with
  | Ev c r =>
      match c as c0
            return res (ret_ty c0) -> option (option (list string)) with
      | ListRelatives _ _ =>
          fun r0 => match r0 with Ret p => Some p | Raise _ => None end
      | _ => fun _ => None
      end r
  end.

(** The answers of the [cmds.listRelatives] queries that returned. *)
Definition relatives_answers (t : list event)
  : list (option (list string)) :=
  answers relatives_answer t.

(** An [os.path.exists] query that returned: the path it asked about
    and the answer. *)
Definition exists_answer (ev : event) : option (string * bool) :=
  match ev with
  | Ev c r =>
      match c as c0 return res (ret_ty c0) -> option (string * bool) with
      | OsPathExists path =>
          fun r0 => match r0 with
                    | Ret b => Some (path, b)
                    | Raise _ => None
                    end
      | _ => fun _ => None
      end r
  end.

(** An [os.path.getsize] query that returned: the path it measured and
    the size. *)
Definition getsize_answer (ev : event) : option (string * Z) :=
  match ev with
  | Ev c r =>
      match c as c0 return res (ret_ty c0) -> option (string * Z) with
      | OsPathGetsize path =>
          fun r0 => match r0 with
                    | Ret z => Some (path, z)
                    | Raise _ => None
                    end
      | _ => fun _ => None
      end r
  end.

(** [z] is the size of the file at [path] as a run measured it, given
    the [os.path.exists] and [os.path.getsize] queries of the run that
    returned, each with its path: either the file at [path] was said to
    exist and [z] is the size answered for [path], or it was said not to
    exist, its size was never asked and [z] is 0.  No other path was
    asked about. *)
Definition reported_size (path : string) (exists_ : list (string * bool))
  (sizes : list (string * Z)) (z : Z) : Prop :=
  (exists_ = [(path, true)] /\ sizes = [(path, z)]) \/
  (exists_ = [(path, false)] /\ sizes = [] /\ z = 0%Z).

(** The selection list the loop of lines 24-28 builds from the answers
    of [cmds.listRelatives]. *)
Definition transforms_of (parents : list (option (list string)))
  : list string :=
  fold_left extend_if parents [].

(** The node lists given to [cmds.select], whether the call returned or
    raised. *)
Definition select_arg (ev : event) : option (list string) :=
  match ev_call ev with
  | Select nodes => Some nodes
  | _ => None
  end.

Definition selected (t : list event) : list (list string) :=
  answers select_arg t.

(** What [transforms.extend(parent)] under [if parent:] adds for one
    answer of [cmds.listRelatives]. *)
Definition opt_list (parent : option (list string)) : list string :=
  match parent with
  | Some l => l
  | None => []
  end.

Definition is_initialize (c : call) : bool :=
  match c with StandaloneInitialize => true | _ => false end.

Definition is_uninitialize (c : call) : bool :=
  match c with StandaloneUninitialize => true | _ => false end.

Definition is_select (c : call) : bool :=
  match c with Select _ => true | _ => false end.

Definition is_list_relatives (c : call) : bool :=
  match c with ListRelatives _ _ => true | _ => false end.

Definition is_export (c : call) : bool :=
  match c with FileExport _ _ _ _ _ => true | _ => false end.

(** What the loop of lines 24-28 leaves in a trace besides its
    [cmds.listRelatives] queries: nothing the other observations look
    at. *)
Record loop_trace (t : list event) : Prop := {
  lt_ls : ls_answers t = [];
  lt_exists : answers exists_answer t = [];
  lt_getsize : answers getsize_answer t = [];
  lt_selected : selected t = [];
  lt_export : count_calls is_export t = 0;
  lt_uninit : count_calls is_uninitialize t = 0
}.

(** The three ways the body of the [try] can end: it printed the success
    record; it found no mesh shape, printed the error and called
    [sys.exit(1)]; a host call raised. *)
Inductive body_cases {W : Type} (output_path : string)
  (o : out call ret_ty W unit) : Prop :=
| body_success (meshes : list string)
    (parents : list (option (list string))) (z : Z) :
    result o = Ret tt ->
    ls_answers (events o) = [meshes] ->
    relatives_answers (events o) = parents ->
    printed o = [success_line (List.length meshes) output_path z] ->
    raised (events o) = [] ->
    truthy meshes = true ->
    List.length parents = List.length meshes ->
    selected (events o) =
      (if truthy (transforms_of parents)
       then [transforms_of parents] else []) ->
    reported_size output_path (answers exists_answer (events o))
                  (answers getsize_answer (events o)) z ->
    count_calls is_export (events o) = 1 ->
    body_cases output_path o
| body_no_mesh :
    result o = Raise (SystemExit 1) ->
    ls_answers (events o) = [[]] ->
    printed o = [error_line no_mesh_msg] ->
    raised (events o) = [] ->
    selected (events o) = [] ->
    count_calls is_export (events o) = 0 ->
    body_cases output_path o
| body_failed (c : call) (e : py_exc) :
    result o = Raise e ->
    printed o = [] ->
    raised (events o) = [(c, e)] ->
    body_cases output_path o.

(** *** A reference host

    A small Maya: the state is the active selection.  A scene file is its
    mesh shapes, the parent each shape reports, the selection left active
    by opening it, and the size of the OBJ written from it ([None] when
    the export leaves no file). *)
Record scene_file : Type := {
  mesh_shapes : list string;
  parent_of : string -> option (list string);
  open_selection : list string;
  obj_size : option Z
}.

Definition sim (f : scene_file) : host_t (list string) :=
  fun c =>
    match c as c0 return list string -> res (ret_ty c0) * list string with
    | StandaloneInitialize => fun sel => (Ret tt, sel)
    | FileOpen _ _ => fun _ => (Ret tt, open_selection f)
    | Ls _ => fun sel => (Ret (mesh_shapes f), sel)
    | ListRelatives node _ => fun sel => (Ret (parent_of f node), sel)
    | Select nodes => fun _ => (Ret tt, nodes)
    | FileExport _ _ _ _ _ => fun sel => (Ret tt, sel)
    | OsPathExists _ =>
        fun sel => (Ret (match obj_size f with
                         | Some _ => true
                         | None => false
                         end), sel)
    | OsPathGetsize _ =>
        fun sel => (match obj_size f with
                    | Some z => Ret z
                    | None => Raise (Exc "FileNotFoundError"
                                         "No such file or directory")
                    end, sel)
    | StandaloneUninitialize => fun sel => (Ret tt, sel)
    end.

(** Two shapes under one transform and one shape under its own. *)
Definition three_shapes : scene_file :=
  {| mesh_shapes := ["pCubeShape1"; "pCubeShape1Orig"; "pSphereShape1"];
     parent_of := fun n => if String.eqb n "pSphereShape1"
                           then Some ["pSphere1"] else Some ["pCube1"];
     open_selection := [];
     obj_size := Some 4096%Z |}.

(** Shapes that report no parent at all. *)
Definition orphan_shapes : scene_file :=
  {| mesh_shapes := ["shapeA"; "shapeB"];
     parent_of := fun n => if String.eqb n "shapeA" then None else Some [];
     open_selection := ["persp"];
     obj_size := None |}.

(** A scene without mesh shapes. *)
Definition no_shapes : scene_file :=
  {| mesh_shapes := [];
     parent_of := fun _ => None;
     open_selection := [];
     obj_size := None |}.

Definition maya_argv : list string := ["maya_export.py"; "in.mb"; "out.obj"].

Definition is_file_open (c : call) : bool :=
  match c with FileOpen _ _ => true | _ => false end.

(** A host that cannot open the scene file. *)
Definition open_fails : host_t (list string) :=
  failing_at is_file_open (Exc "RuntimeError" "File not found: in.mb")
    (sim three_shapes).

(** A host whose runtime cannot be shut down. *)
Definition uninitialize_fails : host_t (list string) :=
  failing_at is_uninitialize (Exc "RuntimeError" "Error: shutdown failed")
    (sim three_shapes).

End Maya.

(** * Facts about script fragments *)

Module PyFacts.

Import Py.

Section Facts.

Context {call : Type} {ret_ty : call -> Type} {W : Type}.
Variable host : host_t call ret_ty W.

Notation "'Mt' A" := (M call ret_ty W A) (at level 10, only parsing).

Lemma raised_app (t1 t2 : list (event call ret_ty)) :
  raised (t1 ++ t2) = (raised t1 ++ raised t2)%list.
Proof. unfold raised. apply flat_map_app. Qed.

Lemma answers_app {A : Type} (sel : event call ret_ty -> option A) t1 t2 :
  answers sel (t1 ++ t2) = (answers sel t1 ++ answers sel t2)%list.
Proof. unfold answers. apply flat_map_app. Qed.

Lemma count_calls_app (p : call -> bool) (t1 t2 : list (event call ret_ty)) :
  count_calls p (t1 ++ t2) = count_calls p t1 + count_calls p t2.
Proof. unfold count_calls. now rewrite filter_app, length_app. Qed.

Lemma count_calls_cons (p : call -> bool) (ev : event call ret_ty) t :
  count_calls p (ev :: t) =
  (if p (ev_call ev) then 1 else 0) + count_calls p t.
Proof. unfold count_calls. cbn. now destruct (p (ev_call ev)). Qed.

Lemma answers_skip {A : Type} (sel : event call ret_ty -> option A)
  (p : call -> bool) t :
  (forall ev, p (ev_call ev) = true -> sel ev = None) ->
  Forall (fun ev => p (ev_call ev) = true) t ->
  answers sel t = [].
Proof.
  intros Hsel Ht. induction Ht as [|ev t Hev _ IH]; [reflexivity|].
  unfold answers in *. cbn. now rewrite (Hsel ev Hev).
Qed.

Lemma count_calls_skip (q p : call -> bool) (t : list (event call ret_ty)) :
  (forall c, p c = true -> q c = false) ->
  Forall (fun ev => p (ev_call ev) = true) t ->
  count_calls q t = 0.
Proof.
  intros Hq Ht. induction Ht as [|ev t Hev _ IH]; [reflexivity|].
  unfold count_calls in *. cbn. now rewrite (Hq _ Hev).
Qed.

(** [bind], one step at a time. *)
Lemma bind_ret {A B : Type} (m : Mt A) (f : A -> Mt B) w a :
  result (m w) = Ret a ->
  bind m f w = after (events (m w)) (printed (m w)) (f a (world (m w))).
Proof. intros H. unfold bind. now rewrite H. Qed.

Lemma bind_raise {A B : Type} (m : Mt A) (f : A -> Mt B) w e :
  result (m w) = Raise e ->
  bind m f w = Out (Raise e) (world (m w)) (events (m w)) (printed (m w)).
Proof. intros H. unfold bind. now rewrite H. Qed.

(** *** Running a script step by step *)

Lemma after_nil {A : Type} (o : out call ret_ty W A) : after [] [] o = o.
Proof. now destruct o. Qed.

Lemma after_after {A : Type} e1 p1 e2 p2 (o : out call ret_ty W A) :
  after e1 p1 (after e2 p2 o) = after (e1 ++ e2) (p1 ++ p2) o.
Proof. unfold after. cbn. now rewrite !app_assoc. Qed.

Lemma after_bind {A B : Type} evs pr (m : Mt A) (f : A -> Mt B) w :
  after evs pr (bind m f w) =
  match result (m w) with
  | Ret a =>
      after (evs ++ events (m w)) (pr ++ printed (m w)) (f a (world (m w)))
  | Raise e =>
      Out (Raise e) (world (m w)) (evs ++ events (m w)) (pr ++ printed (m w))
  end.
Proof.
  unfold bind. destruct (result (m w)) as [a|e].
  - apply after_after.
  - reflexivity.
Qed.

Lemma after_bind_hcall {B : Type} evs pr c (f : ret_ty c -> Mt B) w :
  after evs pr (bind (hcall host c) f w) =
  match fst (host c w) with
  | Ret a => after (evs ++ [Ev c (Ret a)]) pr (f a (snd (host c w)))
  | Raise e => Out (Raise e) (snd (host c w)) (evs ++ [Ev c (Raise e)]) pr
  end.
Proof.
  rewrite after_bind. unfold hcall. cbn [result world events printed].
  rewrite app_nil_r. now destruct (fst (host c w)).
Qed.

Lemma after_bind_ret {A B : Type} evs pr (a : A) (f : A -> Mt B) w :
  after evs pr (bind (ret a) f w) = after evs pr (f a w).
Proof. rewrite after_bind. cbn. now rewrite !app_nil_r. Qed.

Lemma after_bind_print {B : Type} evs pr s (f : unit -> Mt B) w :
  after evs pr (bind (print s) f w) = after evs (pr ++ [s]) (f tt w).
Proof. rewrite after_bind. cbn. now rewrite app_nil_r. Qed.

Lemma after_bind_lift {A B : Type} evs pr (r : res A) (f : A -> Mt B) w :
  after evs pr (bind (lift r) f w) =
  match r with
  | Ret a => after evs pr (f a w)
  | Raise e => Out (Raise e) w evs pr
  end.
Proof. rewrite after_bind. cbn. rewrite !app_nil_r. now destruct r. Qed.

Lemma after_hcall evs pr c w :
  after evs pr (hcall host c w) =
  Out (fst (host c w)) (snd (host c w)) (evs ++ [Ev c (fst (host c w))]) pr.
Proof. unfold after, hcall. cbn. now rewrite app_nil_r. Qed.

Lemma after_print evs pr s (w : W) :
  after evs pr (print s w) =
  Out (call := call) (ret_ty := ret_ty) (Ret tt) w evs (pr ++ [s]).
Proof. unfold after, print. cbn. now rewrite app_nil_r. Qed.

Lemma after_lift {A : Type} evs pr (r : res A) (w : W) :
  after evs pr (lift r w) = Out (call := call) (ret_ty := ret_ty) r w evs pr.
Proof. unfold after, lift. cbn. now rewrite !app_nil_r. Qed.

Lemma after_ret {A : Type} evs pr (a : A) (w : W) :
  after evs pr (ret a w) =
  Out (call := call) (ret_ty := ret_ty) (Ret a) w evs pr.
Proof. unfold after, ret. cbn. now rewrite !app_nil_r. Qed.

Lemma after_sys_exit {A : Type} evs pr n (w : W) :
  after evs pr (sys_exit n w) =
  Out (call := call) (ret_ty := ret_ty) (A := A)
      (Raise (SystemExit n)) w evs pr.
Proof. unfold after, sys_exit, raise. cbn. now rewrite !app_nil_r. Qed.

Lemma after_bind_sys_exit {A B : Type} evs pr n (f : A -> Mt B) w :
  after evs pr (bind (sys_exit n) f w) = Out (Raise (SystemExit n)) w evs pr.
Proof. rewrite after_bind. cbn. now rewrite !app_nil_r. Qed.

Lemma bind_assoc {A B C : Type} (m : Mt A) (f : A -> Mt B) (g : B -> Mt C)
  w :
  bind (bind m f) g w = bind m (fun a => bind (f a) g) w.
Proof.
  unfold bind.
  destruct (m w) as [[a|e] w1 evs1 pr1];
    cbn [result world events printed after]; [|reflexivity].
  destruct (f a w1) as [[b|e] w2 evs2 pr2];
    cbn [result world events printed after]; [|reflexivity].
  unfold after. cbn [result world events printed].
  now rewrite !app_assoc.
Qed.

Lemma bind_if {A B : Type} (b : bool) (m1 m2 : Mt A) (f : A -> Mt B) w :
  bind (if b then m1 else m2) f w = if b then bind m1 f w else bind m2 f w.
Proof. now destruct b. Qed.

(** *** [silent] *)

Lemma silent_ret {A : Type} (a : A) : silent (ret a : Mt A).
Proof. intros w. reflexivity. Qed.

Lemma silent_hcall (c : call) : silent (hcall host c).
Proof. intros w. reflexivity. Qed.

Lemma silent_bind {A B : Type} (m : Mt A) (f : A -> Mt B) :
  silent m -> (forall a, silent (f a)) -> silent (bind m f).
Proof.
  intros Hm Hf w. unfold bind, after.
  destruct (result (m w)) as [a|e]; cbn.
  - now rewrite Hm, Hf.
  - apply Hm.
Qed.

Lemma silent_for_fold {A B : Type} (body : B -> A -> Mt B) l :
  (forall b a, silent (body b a)) -> forall acc, silent (for_fold body l acc).
Proof.
  intros Hb. induction l as [|x l IH]; intros acc; cbn.
  - apply silent_ret.
  - apply silent_bind; auto.
Qed.

(** *** [emits] *)

Lemma emits_ret {A : Type} p (a : A) : emits p (ret a : Mt A).
Proof. intros w. constructor. Qed.

Lemma emits_hcall (p : call -> bool) (c : call) :
  p c = true -> emits p (hcall host c).
Proof. intros H w. cbn. now repeat constructor. Qed.

Lemma emits_bind {A B : Type} p (m : Mt A) (f : A -> Mt B) :
  emits p m -> (forall a, emits p (f a)) -> emits p (bind m f).
Proof.
  intros Hm Hf w. unfold bind, after.
  destruct (result (m w)) as [a|e]; cbn.
  - apply Forall_app. split; [apply Hm | apply Hf].
  - apply Hm.
Qed.

Lemma emits_for_fold {A B : Type} p (body : B -> A -> Mt B) l :
  (forall b a, emits p (body b a)) ->
  forall acc, emits p (for_fold body l acc).
Proof.
  intros Hb. induction l as [|x l IH]; intros acc; cbn.
  - apply emits_ret.
  - apply emits_bind; auto.
Qed.

(** *** [transparent] *)

Lemma transparent_ret {A : Type} (a : A) : transparent (ret a : Mt A).
Proof. intros w. reflexivity. Qed.

Lemma transparent_hcall (c : call) : transparent (hcall host c).
Proof.
  intros w. unfold hcall. cbn.
  destruct (fst (host c w)) as [a|e]; cbn; [reflexivity | now exists c].
Qed.

Lemma transparent_bind {A B : Type} (m : Mt A) (f : A -> Mt B) :
  transparent m -> (forall a, transparent (f a)) -> transparent (bind m f).
Proof.
  intros Hm Hf w. specialize (Hm w). unfold bind, after.
  destruct (result (m w)) as [a|e]; cbn [result events].
  - specialize (Hf a (world (m w))).
    rewrite raised_app, Hm. exact Hf.
  - exact Hm.
Qed.

Lemma transparent_for_fold {A B : Type} (body : B -> A -> Mt B) l :
  (forall b a, transparent (body b a)) ->
  forall acc, transparent (for_fold body l acc).
Proof.
  intros Hb. induction l as [|x l IH]; intros acc; cbn.
  - apply transparent_ret.
  - apply transparent_bind; auto.
Qed.

Lemma emits_print p s : emits p (print s : Mt unit).
Proof. intros w. constructor. Qed.

Lemma emits_sys_exit {A : Type} p n : emits p (sys_exit n : Mt A).
Proof. intros w. constructor. Qed.

Lemma emits_lift {A : Type} p (r : res A) : emits p (lift r : Mt A).
Proof. intros w. constructor. Qed.

Lemma emits_try_except {A : Type} p (body : Mt A) handler :
  emits p body -> (forall e, emits p (handler e)) ->
  emits p (try_except body handler).
Proof.
  intros Hb Hh w. unfold try_except.
  destruct (result (body w)) as [a|e]; [apply Hb|].
  destruct (isinstance_Exception e); [|apply Hb].
  unfold after. cbn [events]. apply Forall_app. split; [apply Hb | apply Hh].
Qed.

(** A call that raised in a trace is one of the calls of the trace. *)
Lemma raised_emits (p : call -> bool) (t : list (event call ret_ty)) c e :
  Forall (fun ev => p (ev_call ev) = true) t ->
  In (c, e) (raised t) -> p c = true.
Proof.
  intros Ht. induction Ht as [|[k r] t Hk _ IH]; cbn; [easy|].
  destruct r as [a|e']; cbn; [exact IH|].
  intros [[= <- <-]|H]; [exact Hk | exact (IH H)].
Qed.

Lemma raised_cons_ret (c : call) (a : ret_ty c) t :
  raised (Ev c (Ret a) :: t) = raised t.
Proof. reflexivity. Qed.

Lemma toplevel_raise {A : Type} (e : py_exc) :
  toplevel (Raise e : res A) <> Finished.
Proof. destruct e; discriminate. Qed.

Lemma getitem_short {A : Type} (l : list A) i :
  List.length l <= i -> getitem l i = Raise index_error.
Proof.
  intros H. unfold getitem.
  now rewrite (proj2 (nth_error_None l i) H).
Qed.

Lemma getitem_long {A : Type} (l : list A) i :
  i < List.length l -> exists a, getitem l i = Ret a.
Proof.
  intros H. unfold getitem.
  destruct (nth_error l i) eqn:E; [eauto|].
  apply nth_error_None in E. lia.
Qed.

(** An error record never starts like a success record. *)
Lemma error_line_prefix msg :
  String.prefix "EXPORT_RESULT:" (error_line msg) = false.
Proof. reflexivity. Qed.

(** The handler of both scripts: print the error record and exit with
    code 1. *)
Lemma try_except_report (body : Mt unit) (handler : py_exc -> Mt unit) w :
  (forall e w', handler e w' =
                Out (Raise (SystemExit 1)) w' [] [error_line (str e)]) ->
  let o := try_except body handler w in
  events o = events (body w) /\
  match result (body w) with
  | Ret a => result o = Ret a /\ printed o = printed (body w)
  | Raise e =>
      if isinstance_Exception e
      then result o = Raise (SystemExit 1) /\
           printed o = (printed (body w) ++ [error_line (str e)])%list
      else result o = Raise e /\ printed o = printed (body w)
  end.
Proof.
  intros Hh. unfold try_except.
  destruct (result (body w)) as [a|e] eqn:E.
  - now rewrite E.
  - destruct (isinstance_Exception e).
    + rewrite Hh. unfold after. cbn. now rewrite app_nil_r.
    + now rewrite E.
Qed.

End Facts.

End PyFacts.

(** Stepping through a script: the goal is [Q (after evs pr (m w))]. *)
Ltac step_pure :=
  first
    [ rewrite PyFacts.bind_assoc
    | rewrite PyFacts.bind_if
    | rewrite PyFacts.after_bind_ret
    | rewrite PyFacts.after_bind_print
    | rewrite PyFacts.after_bind_lift
    | rewrite PyFacts.after_bind_sys_exit
    | rewrite PyFacts.after_print
    | rewrite PyFacts.after_lift
    | rewrite PyFacts.after_ret
    | rewrite PyFacts.after_sys_exit
    | match goal with
      | |- context [Py.after _ _ (if ?b then _ else _)] => destruct b eqn:?
      end ].

Ltac step_call host :=
  match goal with
  | |- context [Py.after ?evs ?pr (Py.bind (Py.hcall host ?k) ?f ?st)] =>
      rewrite (PyFacts.after_bind_hcall host evs pr k f st);
      let E := fresh "E" in
      destruct (host k st) as [[?a|?e] ?w] eqn:E; cbn [fst snd]
  | |- context [Py.after ?evs ?pr (Py.hcall host ?k ?st)] =>
      rewrite (PyFacts.after_hcall host evs pr k st);
      let E := fresh "E" in
      destruct (host k st) as [[?a|?e] ?w] eqn:E; cbn [fst snd]
  end.

(** Closing a goal made of conjunctions, disjunctions and existentials
    over equations. *)
Ltac fin :=
  first
    [ reflexivity | assumption | lia | congruence
    | match goal with
      | |- _ /\ _ => split; fin
      | |- exists _, _ => eexists; fin
      | |- _ \/ _ => first [ solve [left; fin] | solve [right; fin] ]
      end ].

Create HintDb script.
#[global] Hint Resolve PyFacts.silent_ret PyFacts.silent_bind
  PyFacts.silent_for_fold : script.
#[global] Hint Resolve PyFacts.emits_ret PyFacts.emits_bind
  PyFacts.emits_for_fold : script.
#[global] Hint Resolve PyFacts.transparent_ret PyFacts.transparent_bind
  PyFacts.transparent_for_fold : script.
#[global] Hint Extern 1 (Py.silent (Py.hcall ?h ?c)) =>
  exact (PyFacts.silent_hcall h c) : script.
#[global] Hint Extern 1 (Py.transparent (Py.hcall ?h ?c)) =>
  exact (PyFacts.transparent_hcall h c) : script.
#[global] Hint Extern 1 (Py.emits ?p (Py.hcall ?h ?c)) =>
  exact (PyFacts.emits_hcall h p c eq_refl) : script.

(** * The GLB exporter *)

Module BlenderFacts.

Import Py Blender.

Section Loops.

Context {W : Type}.
Variable host : host_t W.

Lemma link_objects_silent scene objects :
  silent (link_objects host scene objects).
Proof.
  unfold link_objects. apply PyFacts.silent_for_fold.
  intros _ [o|]; auto with script.
Qed.

Lemma link_objects_transparent scene objects :
  transparent (link_objects host scene objects).
Proof.
  unfold link_objects. apply PyFacts.transparent_for_fold.
  intros _ [o|]; auto with script.
Qed.

Lemma link_objects_emits scene objects :
  emits is_link (link_objects host scene objects).
Proof.
  unfold link_objects. apply PyFacts.emits_for_fold.
  intros _ [o|]; auto with script.
Qed.

Lemma select_meshes_silent objects n :
  silent (select_meshes host objects n).
Proof.
  unfold select_meshes. apply PyFacts.silent_for_fold.
  intros b a. destruct (String.eqb _ _); auto with script.
Qed.

Lemma select_meshes_transparent objects n :
  transparent (select_meshes host objects n).
Proof.
  unfold select_meshes. apply PyFacts.transparent_for_fold.
  intros b a. destruct (String.eqb _ _); auto with script.
Qed.

Lemma select_meshes_emits objects n :
  emits is_select_set (select_meshes host objects n).
Proof.
  unfold select_meshes. apply PyFacts.emits_for_fold.
  intros b a. destruct (String.eqb _ _); auto with script.
Qed.

Lemma select_meshes_cons o l n :
  select_meshes host (o :: l) n =
  bind (if String.eqb (ob_type o) "MESH"
        then bind (hcall host (SelectSet o true)) (fun _ => ret (S n))
        else ret n)
       (fun n' => select_meshes host l n').
Proof. reflexivity. Qed.

Lemma count_mesh_cons o l :
  count_mesh (o :: l) =
  (if String.eqb (ob_type o) "MESH" then 1 else 0) + count_mesh l.
Proof.
  unfold count_mesh, is_mesh. cbn [filter].
  now destruct (String.eqb (ob_type o) "MESH").
Qed.

(** The loop adds the number of mesh-typed objects to the counter. *)
Lemma select_meshes_count objects : forall n w m,
  result (select_meshes host objects n w) = Ret m ->
  m = n + count_mesh objects.
Proof.
  induction objects as [|o l IH]; intros n w m.
  - cbn. intros [= <-]. unfold count_mesh. cbn. lia.
  - rewrite select_meshes_cons, count_mesh_cons.
    destruct (String.eqb (ob_type o) "MESH");
      unfold bind, after, hcall, ret; cbn [result world].
    + destruct (fst (host (SelectSet o true) w)); cbn [result world].
      * destruct (result (select_meshes host l (S n) _)) eqn:E;
          cbn [result]; [|discriminate].
        intros [= <-]. apply IH in E. lia.
      * discriminate.
    + destruct (result (select_meshes host l n _)) eqn:E;
        cbn [result]; [|discriminate].
      intros [= <-]. apply IH in E. lia.
Qed.

(** Without a mesh-typed object the loop calls nothing. *)
Lemma select_meshes_none objects : forall n w,
  count_mesh objects = 0 ->
  select_meshes host objects n w = Out (Ret n) w [] [].
Proof.
  induction objects as [|o l IH]; intros n w H.
  - reflexivity.
  - rewrite select_meshes_cons. rewrite count_mesh_cons in H.
    destruct (String.eqb (ob_type o) "MESH"); [discriminate|].
    unfold bind, after, ret. cbn [result world events printed].
    rewrite (IH n w H). reflexivity.
Qed.

Lemma select_meshes_raise objects n w e :
  result (select_meshes host objects n w) = Raise e ->
  count_mesh objects <> 0.
Proof.
  intros R H. rewrite (select_meshes_none objects n w H) in R.
  discriminate.
Qed.

Lemma glb_loop_trace_intro (p : call -> bool) t :
  (forall c, p c = true -> is_link c || is_select_set c = true) ->
  Forall (fun ev : event => p (ev_call ev) = true) t ->
  loop_trace t.
Proof.
  intros Hp Ht.
  assert (Hsel : forall A (sel : event -> option A),
             (forall ev, is_link (ev_call ev) || is_select_set (ev_call ev)
                         = true -> sel ev = None) ->
             answers sel t = []).
  { intros A sel Hs. apply (PyFacts.answers_skip sel p); auto. }
  assert (Hcnt : forall q : call -> bool,
             (forall c, is_link c || is_select_set c = true -> q c = false) ->
             count_calls q t = 0).
  { intros q Hq. apply (PyFacts.count_calls_skip q p); auto. }
  split; try (apply Hsel; intros [[] r]; cbn; congruence);
    apply Hcnt; intros []; cbn; congruence.
Qed.

Lemma link_objects_step sc x l w :
  link_objects host sc (x :: l) w =
  match x with
  | Some o =>
      match fst (host (CollectionLink sc o) w) with
      | Ret a =>
          after [Ev (CollectionLink sc o) (Ret a)] []
                (link_objects host sc l (snd (host (CollectionLink sc o) w)))
      | Raise e =>
          Out (Raise e) (snd (host (CollectionLink sc o) w))
              [Ev (CollectionLink sc o) (Raise e)] []
      end
  | None => link_objects host sc l w
  end.
Proof.
  unfold link_objects. cbn [for_fold].
  rewrite <- (PyFacts.after_nil (bind _ _ w)).
  destruct x as [o|].
  - rewrite (PyFacts.after_bind_hcall host [] [] (CollectionLink sc o)).
    destruct (fst (host (CollectionLink sc o) w)) as [[]|e]; reflexivity.
  - rewrite PyFacts.after_bind_ret. apply PyFacts.after_nil.
Qed.

(** What a linking loop that returned has called. *)
Lemma link_objects_returned sc objects : forall w u,
  result (link_objects host sc objects w) = Ret u ->
  map (@ev_call _ _) (events (link_objects host sc objects w)) =
    map (CollectionLink sc) (loaded objects).
Proof.
  induction objects as [|x l IH]; intros w u.
  - reflexivity.
  - rewrite link_objects_step. destruct x as [o|]; [|exact (IH w u)].
    unfold loaded. cbn [flat_map app]. fold (loaded l).
    destruct (host (CollectionLink sc o) w) as [[a|e] w']; cbn [fst snd];
      [|discriminate].
    unfold after. cbn [result events app map]. intros H.
    now rewrite (IH w' u H).
Qed.

Lemma link_objects_trace scene objects w :
  loop_trace (events (link_objects host scene objects w)).
Proof.
  apply (glb_loop_trace_intro is_link); [|apply link_objects_emits].
  intros c ->. reflexivity.
Qed.

Lemma select_meshes_trace objects n w :
  loop_trace (events (select_meshes host objects n w)).
Proof.
  apply (glb_loop_trace_intro is_select_set); [|apply select_meshes_emits].
  intros c ->. apply orb_true_r.
Qed.

End Loops.

Ltac step_loop host :=
  match goal with
  | |- context [after ?evs ?pr (bind (link_objects host ?sc ?objs) ?f ?st)] =>
      rewrite (PyFacts.after_bind evs pr (link_objects host sc objs) f st);
      rewrite (link_objects_silent host sc objs st);
      pose proof (link_objects_trace host sc objs st);
      let T := fresh "T" in
      pose proof (link_objects_transparent host sc objs st) as T;
      destruct (result (link_objects host sc objs st)) as [?a|?e] eqn:?;
      [| destruct T as [?c T] ]
  | |- context [after ?evs ?pr (bind (select_meshes host ?objs ?n) ?f ?st)] =>
      rewrite (PyFacts.after_bind evs pr (select_meshes host objs n) f st);
      rewrite (select_meshes_silent host objs n st);
      pose proof (select_meshes_trace host objs n st);
      let T := fresh "T" in
      pose proof (select_meshes_transparent host objs n st) as T;
      let R := fresh "R" in
      destruct (result (select_meshes host objs n st)) as [?a|?e] eqn:R;
      [ apply select_meshes_count in R
      | apply select_meshes_raise in R; destruct T as [?c T] ]
  end.

Ltac step host := first [ step_pure | step_call host | step_loop host ].

Ltac obs :=
  repeat match goal with
         | H : loop_trace _ |- _ => destruct H
         | H : (_ =? _)%nat = true |- _ => apply Nat.eqb_eq in H
         | H : (_ =? _)%nat = false |- _ => apply Nat.eqb_neq in H
         end;
  cbn [result world events printed];
  unfold scene_answers, opened in *;
  rewrite ?PyFacts.raised_app, ?PyFacts.answers_app, ?PyFacts.count_calls_app;
  repeat match goal with
         | H : raised _ = _ |- _ => rewrite H
         | H : answers _ _ = _ |- _ => rewrite H
         | H : count_calls _ _ = _ |- _ => rewrite H
         end;
  cbn [raised answers count_calls flat_map filter app List.length
       ev_call ev_res scene_answer getsize_answer open_arg
       is_reset is_open_mainfile is_export is_getsize Nat.add].

Section Body.

Context {W : Type}.
Variable host : host_t W.

Lemma glb_try_body_cases input_path output_path w :
  body_cases input_path output_path
    (try_body host input_path output_path w).
Proof.
  rewrite <- (PyFacts.after_nil (try_body host input_path output_path w)).
  unfold try_body.
  repeat step host.
  all: try solve [
    lazymatch goal with
    | |- body_cases _ _ (Out (Ret _) _ _ _) => eapply body_success
    | |- body_cases _ _ (Out (Raise (SystemExit _)) _ _ _) =>
        eapply body_no_mesh
    | |- _ => eapply body_failed
    end; obs; [fin ..] ].
  Unshelve. all: exact [].
Qed.

(** The fallback in the trace of the body of the [try]: when
    [open_mainfile] is called, everything before it returned, the listing
    just before it is the one of the scene the loaded objects were linked
    to and holds no mesh-typed object; after it the body asks
    [bpy.context.scene] again and lists the objects of the scene that
    call answers, and when the body runs to its end the count it reports
    is the one of that listing. *)
Lemma glb_try_body_fallback_shape input_path output_path w :
  opened (events (try_body host input_path output_path w)) = [] \/
  exists objects s1 links a1 objs0 res rest,
    events (try_body host input_path output_path w) =
      (Ev (LibrariesLoad input_path false) (Ret objects) ::
       Ev ContextScene (Ret s1) ::
       links ++
       Ev (SelectAll "DESELECT") (Ret a1) ::
       Ev (SceneObjects s1) (Ret objs0) ::
       Ev (OpenMainfile input_path) res :: rest)%list /\
    map (@ev_call _ _) links = map (CollectionLink s1) (loaded objects) /\
    raised links = [] /\
    count_mesh objs0 = 0 /\
    match res with
    | Raise _ => rest = []
    | Ret _ =>
        exists res1 rest1,
          rest = Ev ContextScene res1 :: rest1 /\
          match res1 with
          | Raise _ => rest1 = []
          | Ret s2 =>
              exists res2 rest2,
                rest1 = Ev (SceneObjects s2) res2 :: rest2 /\
                match res2 with
                | Raise _ => rest2 = []
                | Ret objs =>
                    result (try_body host input_path output_path w)
                      = Ret tt ->
                    exists z,
                      printed (try_body host input_path output_path w) =
                        [success_line (count_mesh objs) output_path z]
                end
          end
    end.
Proof.
  pattern (try_body host input_path output_path w).
  match goal with |- ?P _ => set (Q := P) end.
  rewrite <- (PyFacts.after_nil (try_body host input_path output_path w)).
  unfold try_body.
  repeat step host.
  all: subst Q; cbv beta; cbn [events result printed].
  all: try (left; obs; reflexivity).
  all: right.
  all: repeat match goal with
         | H : (_ =? _)%nat = true |- _ => apply Nat.eqb_eq in H
         | H : (_ =? _)%nat = false |- _ => apply Nat.eqb_neq in H
         end.
  all: match goal with
       | R : ?m = 0 + count_mesh ?objs, Z : ?m = 0 |- _ =>
           let Hc := fresh "Hc" in
           assert (Hc : count_mesh objs = 0) by lia;
           rewrite (select_meshes_none host objs 0 _ Hc); cbn [events]
       end.
  all: match goal with
       | |- exists _ _ _ _ _ _ _, ?lhs = _ /\ _ =>
           let t := fresh "t" in
           let Ht := fresh "Ht" in
           remember lhs as t eqn:Ht;
           rewrite <- ?app_assoc in Ht; cbn [app] in Ht; subst t
       end.
  all: match goal with
       | |- exists _ _ _ _ _ _ _,
             Ev _ (Ret ?a) :: Ev _ (Ret ?s1) ::
             (?links ++ Ev _ (Ret ?a2) :: Ev _ (Ret ?objs0)
                     :: Ev (OpenMainfile _) ?res :: ?rest)%list = _ /\ _ =>
           exists a, s1, links, a2, objs0, res, rest
       end.
  all: split; [reflexivity|].
  all: split; [eapply link_objects_returned; eassumption|].
  all: split; [assumption|].
  all: split; [assumption|].
  all: try reflexivity.
  all: do 2 eexists; (split; [reflexivity|]); cbv beta iota.
  all: try reflexivity.
  all: do 2 eexists; (split; [reflexivity|]); cbv beta iota.
  all: try reflexivity.
  all: try (intros [=]; fail).
  all: intros _; cbn [app].
  all: match goal with
       | |- exists z, [success_line ?n _ ?x] = [success_line ?m _ z] =>
           exists x; replace n with m by lia; reflexivity
       end.
Qed.

(** Links are not listings. *)
Lemma links_no_listing (links : list event) s l :
  map (@ev_call _ _) links = map (CollectionLink s) l ->
  scene_answers links = [].
Proof.
  revert l. induction links as [|[c r] t IH]; intros [|o l]; cbn;
    try discriminate; [reflexivity|].
  intros [= -> H]. exact (IH l H).
Qed.

Lemma glb_except_handler_eq e (w : W) :
  except_handler e w = Out (Raise (SystemExit 1)) w [] [error_line (str e)].
Proof. reflexivity. Qed.

(** The whole function in terms of the body of its [try]. *)
Lemma export_to_glb_run input_path output_path w :
  let o := export_to_glb host input_path output_path w in
  match host (ReadFactorySettings true) w with
  | (Raise e, w') =>
      o = Out (Raise e) w' [Ev (ReadFactorySettings true) (Raise e)] []
  | (Ret a, w') =>
      let b := try_body host input_path output_path w' in
      events o = Ev (ReadFactorySettings true) (Ret a) :: events b /\
      match result b with
      | Ret x => result o = Ret x /\ printed o = printed b
      | Raise e =>
          if isinstance_Exception e
          then result o = Raise (SystemExit 1) /\
               printed o = (printed b ++ [error_line (str e)])%list
          else result o = Raise e /\ printed o = printed b
      end
  end.
Proof.
  intros o. subst o. unfold export_to_glb.
  rewrite <- (PyFacts.after_nil (bind _ _ w)).
  rewrite PyFacts.after_bind_hcall.
  destruct (host (ReadFactorySettings true) w) as [[a|e] w'] eqn:E;
    cbn [fst snd]; [|reflexivity].
  pose proof (PyFacts.try_except_report
                (try_body host input_path output_path)
                except_handler w' glb_except_handler_eq) as [He Hr].
  cbn zeta in *. unfold after. cbn [result events printed app].
  rewrite He. split; [reflexivity|].
  destruct (result (try_body host input_path output_path w')) as [x|e];
    [exact Hr|].
  destruct (isinstance_Exception e); exact Hr.
Qed.

(** Either the command line is accepted and the script is one call of
    [export_to_glb], or no host call is made at all. *)
Lemma main_no_call argv w :
  (exists input_path output_path,
      main host argv w = export_to_glb host input_path output_path w) \/
  events (main host argv w) = [].
Proof.
  unfold main. rewrite <- (PyFacts.after_nil (bind _ _ w)).
  repeat step_pure; try (right; reflexivity).
  destruct (list_index "--" argv) as [i|e]; [|right; reflexivity].
  repeat step_pure.
  destruct (getitem _ 0) as [a|e]; [|right; reflexivity].
  repeat step_pure.
  destruct (getitem _ 1) as [b|e]; [|right; reflexivity].
  left. exists a, b. apply PyFacts.after_nil.
Qed.

Lemma glb_exception_reported argv w c e :
  In (c, e) (raised (trace (run_script host argv w))) ->
  is_reset c = false ->
  isinstance_Exception e = true ->
  stdout (run_script host argv w) = [error_line (str e)] /\
  exit (run_script host argv w) = Exited 1.
Proof.
  unfold run_script, exec. cbn [trace stdout exit].
  destruct (main_no_call argv w) as [(i & o & ->)| ->]; [|intros []].
  pose proof (export_to_glb_run i o w) as R. cbn zeta in R.
  destruct (host (ReadFactorySettings true) w) as [[a|e0] w'].
  2:{ rewrite R. cbn. intros [[= <- <-]|[]]. discriminate. }
  destruct R as [He Hr]. rewrite He.
  change (raised (Ev (ReadFactorySettings true) (Ret a) :: ?t))
    with (raised t).
  intros Hin _ Hexc.
  destruct (glb_try_body_cases i o w')
    as [n z objs Hres Hsc Hpr Hra Hn Hc Hsz Hex
       |objs0 objs Hres Hsc Hpr Hra H0 H1 Hop Hex Hsz
       |c' e' Hres Hpr Hra Hsc];
    rewrite Hra in Hin; try destruct Hin.
  2: contradiction.
  injection H as <- <-. rewrite Hres, Hexc in Hr.
  destruct Hr as [-> ->]. now rewrite Hpr.
Qed.

(** *** The usage guard *)

Lemma find_index_script_args argv :
  match find_index "--" argv with
  | Some i => skipn (i + 1) argv = script_args argv
  | None => script_args argv = []
  end.
Proof.
  induction argv as [|a l IH]; [reflexivity|].
  cbn [find_index script_args].
  destruct (String.eqb a "--"); [reflexivity|].
  destruct (find_index "--" l) as [i|]; cbn; [exact IH|exact IH].
Qed.

(** What the guard does when it fires. *)
Lemma usage_guard argv w :
  List.length argv < 4 ->
  run_script host argv w = Run (Exited 1) [error_line usage_msg] [].
Proof.
  intros H. unfold run_script, exec, main.
  rewrite <- (PyFacts.after_nil (bind _ _ w)).
  rewrite PyFacts.bind_if.
  destruct (Nat.ltb_spec (List.length argv) 4) as [_|H']; [|lia].
  repeat step_pure. reflexivity.
Qed.

Lemma glb_one_status_line argv w :
  List.length argv < 4 \/ trace (run_script host argv w) <> [] ->
  ~ In (ReadFactorySettings true)
       (map fst (raised (trace (run_script host argv w)))) ->
  Forall (fun ce => isinstance_Exception (snd ce) = true)
         (raised (trace (run_script host argv w))) ->
  one_status_line (run_script host argv w).
Proof.
  intros [Hlt|Hne].
  { intros _ _. rewrite (usage_guard argv w Hlt).
    exists (error_line usage_msg). cbn [stdout exit].
    split; [reflexivity|]. right. split; [reflexivity|].
    now exists usage_msg. }
  revert Hne.
  unfold one_status_line, run_script, exec. cbn [trace stdout exit].
  destruct (main_no_call argv w) as [(i & o & ->)| ->];
    [|intros H; now destruct H].
  pose proof (export_to_glb_run i o w) as R. cbn zeta in R.
  destruct (host (ReadFactorySettings true) w) as [[a|e0] w'].
  2:{ rewrite R. cbn. tauto. }
  destruct R as [He Hr]. rewrite He.
  change (raised (Ev (ReadFactorySettings true) (Ret a) :: ?t))
    with (raised t).
  intros _ _ Hall.
  destruct (glb_try_body_cases i o w')
    as [n z objs Hres Hsc Hpr Hra Hn Hc Hsz Hex
       |objs0 objs Hres Hsc Hpr Hra H0 H1 Hop Hex Hsz
       |c' e' Hres Hpr Hra Hsc];
    rewrite Hres in Hr; cbn [isinstance_Exception] in Hr.
  - destruct Hr as [-> ->]. rewrite Hpr.
    exists (success_line n o z). split; [reflexivity|].
    left. split; [reflexivity|]. now exists n, o, z.
  - destruct Hr as [-> ->]. rewrite Hpr.
    exists (error_line no_mesh_msg). split; [reflexivity|].
    right. split; [reflexivity|]. now exists no_mesh_msg.
  - rewrite Hra in Hall. inversion Hall as [|? ? He' _]; subst. cbn in He'.
    rewrite He' in Hr. destruct Hr as [-> ->]. rewrite Hpr.
    exists (error_line (str e')). split; [reflexivity|].
    right. split; [reflexivity|]. now exists (str e').
Qed.

Lemma scene_answers_cons_reset a (t : list event) :
  scene_answers (Ev (ReadFactorySettings true) a :: t) = scene_answers t.
Proof. reflexivity. Qed.

Lemma opened_cons_reset a (t : list event) :
  opened (Ev (ReadFactorySettings true) a :: t) = opened t.
Proof. reflexivity. Qed.

End Body.

End BlenderFacts.

(** * The OBJ exporter *)

Module MayaFacts.

Import Py Maya.

Section Loops.

Context {W : Type}.
Variable host : host_t W.

Lemma collect_transforms_from meshes :
  collect_transforms host meshes = collect_from host meshes [].
Proof. reflexivity. Qed.

Lemma collect_from_silent meshes acc :
  silent (collect_from host meshes acc).
Proof.
  unfold collect_from. apply PyFacts.silent_for_fold.
  intros; auto with script.
Qed.

Lemma collect_from_transparent meshes acc :
  transparent (collect_from host meshes acc).
Proof.
  unfold collect_from. apply PyFacts.transparent_for_fold.
  intros; auto with script.
Qed.

Lemma collect_from_emits meshes acc :
  emits is_list_relatives (collect_from host meshes acc).
Proof.
  unfold collect_from. apply PyFacts.emits_for_fold.
  intros; auto with script.
Qed.

Lemma collect_from_cons m l acc w :
  collect_from host (m :: l) acc w =
  match fst (host (ListRelatives m true) w) with
  | Ret p =>
      after [Ev (ListRelatives m true) (Ret p)] []
            (collect_from host l (extend_if acc p)
               (snd (host (ListRelatives m true) w)))
  | Raise e =>
      Out (Raise e) (snd (host (ListRelatives m true) w))
          [Ev (ListRelatives m true) (Raise e)] []
  end.
Proof.
  unfold collect_from. cbn [for_fold].
  rewrite <- (PyFacts.after_nil (bind _ _ w)).
  rewrite PyFacts.bind_assoc, PyFacts.after_bind_hcall.
  destruct (fst (host (ListRelatives m true) w)) as [p|e]; [|reflexivity].
  rewrite PyFacts.after_bind_ret. reflexivity.
Qed.

(** The queries of the loop, in order, and what it returns. *)
Lemma collect_from_spec meshes : forall acc w,
  let o := collect_from host meshes acc w in
  let parents := relatives_answers (events o) in
  map (@ev_call _ _) (events o) =
    map (fun m => ListRelatives m true)
        (firstn (List.length (events o)) meshes) /\
  match result o with
  | Ret ts =>
      ts = fold_left extend_if parents acc /\
      List.length parents = List.length meshes /\
      List.length (events o) = List.length meshes
  | Raise _ => List.length parents < List.length meshes
  end.
Proof.
  induction meshes as [|m l IH]; intros acc w; cbn zeta.
  - cbn. auto.
  - rewrite collect_from_cons.
    destruct (host (ListRelatives m true) w) as [[p|e] w']; cbn [fst snd].
    + specialize (IH (extend_if acc p) w'). cbn zeta in IH.
      destruct IH as [Hc Hr].
      unfold after. cbn [result events app List.length firstn map].
      unfold relatives_answers in *.
      cbn [answers flat_map relatives_answer app].
      fold (answers relatives_answer
              (events (collect_from host l (extend_if acc p) w'))).
      split; [now rewrite <- Hc|].
      destruct (result (collect_from host l (extend_if acc p) w')) as [ts|e].
      * destruct Hr as (-> & Hl & Hn). cbn [fold_left List.length]. auto.
      * cbn [List.length]. lia.
    + cbn. split; [reflexivity|lia].
Qed.

Lemma collect_transforms_silent meshes :
  silent (collect_transforms host meshes).
Proof. exact (collect_from_silent meshes []). Qed.

Lemma collect_transforms_transparent meshes :
  transparent (collect_transforms host meshes).
Proof. exact (collect_from_transparent meshes []). Qed.

Lemma collect_transforms_spec meshes w :
  let o := collect_transforms host meshes w in
  let parents := relatives_answers (events o) in
  map (@ev_call _ _) (events o) =
    map (fun m => ListRelatives m true)
        (firstn (List.length (events o)) meshes) /\
  match result o with
  | Ret ts =>
      ts = transforms_of parents /\
      List.length parents = List.length meshes /\
      List.length (events o) = List.length meshes
  | Raise _ => List.length parents < List.length meshes
  end.
Proof. exact (collect_from_spec meshes [] w). Qed.

Lemma obj_loop_trace_intro t :
  Forall (fun ev : event => is_list_relatives (ev_call ev) = true) t ->
  loop_trace t.
Proof.
  intros Ht.
  assert (Hsel : forall A (sel : event -> option A),
             (forall ev, is_list_relatives (ev_call ev) = true ->
                         sel ev = None) ->
             answers sel t = []).
  { intros A sel Hs.
    apply (PyFacts.answers_skip sel is_list_relatives); auto. }
  assert (Hcnt : forall q : call -> bool,
             (forall c, is_list_relatives c = true -> q c = false) ->
             count_calls q t = 0).
  { intros q Hq.
    apply (PyFacts.count_calls_skip q is_list_relatives); auto. }
  split; try (apply Hsel; intros [[] r]; cbn; congruence);
    apply Hcnt; intros []; cbn; congruence.
Qed.

Lemma collect_transforms_trace meshes w :
  loop_trace (events (collect_transforms host meshes w)).
Proof. apply obj_loop_trace_intro, collect_from_emits. Qed.

End Loops.

Ltac step_loop host :=
  match goal with
  | |- context [after ?evs ?pr (bind (collect_transforms host ?ms) ?f ?st)] =>
      rewrite (PyFacts.after_bind evs pr (collect_transforms host ms) f st);
      rewrite (collect_transforms_silent host ms st);
      pose proof (collect_transforms_trace host ms st);
      let T := fresh "T" in
      pose proof (collect_transforms_transparent host ms st) as T;
      let S := fresh "S" in
      pose proof (collect_transforms_spec host ms st) as [?C S];
      destruct (result (collect_transforms host ms st)) as [?a|?e] eqn:?;
      [ destruct S as (? & ? & ?) | destruct T as [?c T] ]
  end.

Ltac step host := first [ step_pure | step_call host | step_loop host ].

Ltac obs :=
  repeat match goal with
         | H : loop_trace _ |- _ => destruct H
         | H : negb (truthy ?x) = true |- _ =>
             destruct x; [clear H | discriminate H]
         | H : negb (truthy ?x) = false |- _ => apply negb_false_iff in H
         end;
  subst;
  cbn [result world events printed];
  unfold ls_answers, relatives_answers, selected, transforms_of,
    reported_size in *;
  rewrite ?PyFacts.raised_app, ?PyFacts.answers_app, ?PyFacts.count_calls_app;
  repeat match goal with
         | H : raised _ = _ |- _ => rewrite H
         | H : answers ls_answer _ = _ |- _ => rewrite H
         | H : answers exists_answer _ = _ |- _ => rewrite H
         | H : answers getsize_answer _ = _ |- _ => rewrite H
         | H : answers select_arg _ = _ |- _ => rewrite H
         | H : count_calls _ _ = _ |- _ => rewrite H
         end;
  cbn [raised answers count_calls flat_map filter app List.length
       ev_call ev_res ls_answer relatives_answer exists_answer
       getsize_answer select_arg
       is_export is_uninitialize is_select Nat.add];
  rewrite ?app_nil_r;
  repeat match goal with
         | H : truthy _ = _ |- _ => rewrite H
         end.

Section Body.

Context {W : Type}.
Variable host : host_t W.

Lemma obj_try_body_cases input_path output_path w :
  body_cases output_path (try_body host input_path output_path w).
Proof.
  rewrite <- (PyFacts.after_nil (try_body host input_path output_path w)).
  unfold try_body.
  repeat step host.
  all: try solve [
    lazymatch goal with
    | |- body_cases _ (Out (Ret _) _ _ _) => eapply body_success
    | |- body_cases _ (Out (Raise (SystemExit _)) _ _ _) =>
        eapply body_no_mesh
    | |- _ => eapply body_failed
    end; [obs; fin ..] ].
Qed.

Lemma obj_except_handler_eq e (w : W) :
  except_handler e w = Out (Raise (SystemExit 1)) w [] [error_line (str e)].
Proof. reflexivity. Qed.

(** The body makes no call to the runtime's set-up or tear-down. *)
Lemma try_body_emits input_path output_path :
  emits (fun c => negb (is_initialize c || is_uninitialize c))
        (try_body host input_path output_path).
Proof.
  unfold try_body, collect_transforms.
  repeat first
    [ apply PyFacts.emits_bind
    | apply PyFacts.emits_for_fold
    | apply PyFacts.emits_print
    | apply PyFacts.emits_sys_exit
    | apply PyFacts.emits_ret
    | match goal with
      | |- emits ?p (hcall ?h ?c) => exact (PyFacts.emits_hcall h p c eq_refl)
      | |- emits _ (if ?b then _ else _) => destruct b
      end
    | intro ].
Qed.

(** The whole function in terms of the body of its [try]. *)
Lemma export_to_obj_run input_path output_path w :
  let o := export_to_obj host input_path output_path w in
  let b := try_body host input_path output_path w in
  exists res,
    events o = (events b ++ [Ev StandaloneUninitialize res])%list /\
    match res with
    | Raise e' => result o = Raise e'
    | Ret _ =>
        match result b with
        | Ret x => result o = Ret x
        | Raise e =>
            result o = Raise (if isinstance_Exception e
                              then SystemExit 1 else e)
        end
    end /\
    printed o =
      match result b with
      | Ret _ => printed b
      | Raise e =>
          if isinstance_Exception e
          then (printed b ++ [error_line (str e)])%list
          else printed b
      end.
Proof.
  cbn zeta. unfold export_to_obj, try_finally. cbn zeta.
  pose proof (PyFacts.try_except_report (try_body host input_path output_path)
                except_handler w obj_except_handler_eq) as [He Hr].
  cbn zeta in *.
  set (x := try_except _ _ w) in *.
  unfold after, hcall. cbn [result events printed world].
  exists (fst (host StandaloneUninitialize (world x))).
  rewrite He, !app_nil_r. split; [reflexivity|].
  destruct (result (try_body host input_path output_path w)) as [u|e].
  - destruct Hr as [-> ->]. split; [|reflexivity].
    now destruct (fst (host StandaloneUninitialize (world x))).
  - destruct (isinstance_Exception e); destruct Hr as [-> ->];
      (split; [|reflexivity]);
      now destruct (fst (host StandaloneUninitialize (world x))).
Qed.

(** The module body in terms of [export_to_obj]. *)
Lemma main_run argv w :
  match host StandaloneInitialize w with
  | (Raise e, w') =>
      main host argv w = Out (Raise e) w' [Ev StandaloneInitialize (Raise e)] []
  | (Ret a, w') =>
      match getitem argv 1, getitem argv 2 with
      | Ret i, Ret o =>
          main host argv w =
          after [Ev StandaloneInitialize (Ret a)] [] (export_to_obj host i o w')
      | _, _ =>
          main host argv w =
          Out (Raise index_error) w' [Ev StandaloneInitialize (Ret a)] []
      end
  end.
Proof.
  unfold main. rewrite <- (PyFacts.after_nil (bind _ _ w)).
  rewrite PyFacts.after_bind_hcall.
  destruct (host StandaloneInitialize w) as [[a|e] w']; cbn [fst snd];
    [|reflexivity].
  rewrite PyFacts.after_bind_lift.
  destruct (getitem argv 1) as [i|e] eqn:E1.
  - rewrite PyFacts.after_bind_lift.
    destruct (getitem argv 2) as [o|e] eqn:E2; [reflexivity|].
    unfold getitem in E2. destruct (nth_error argv 2); [discriminate|].
    now injection E2 as <-.
  - unfold getitem in E1. destruct (nth_error argv 1) eqn:N; [discriminate|].
    now injection E1 as <-.
Qed.

Lemma answers_uninit {A : Type} (sel : event -> option A) t res :
  sel (Ev StandaloneUninitialize res) = None ->
  answers sel (t ++ [Ev StandaloneUninitialize res]) = answers sel t.
Proof.
  intros H. rewrite PyFacts.answers_app. unfold answers at 2. cbn.
  rewrite H. apply app_nil_r.
Qed.

(** A successful call of [export_to_obj] ran the body of its [try] to the
    end. *)
Lemma succeeded_body input_path output_path w :
  succeeded (run_export host input_path output_path w) ->
  exists meshes parents z res,
    let b := try_body host input_path output_path w in
    let r := run_export host input_path output_path w in
    trace r = (events b ++ [Ev StandaloneUninitialize res])%list /\
    stdout r = [success_line (List.length meshes) output_path z] /\
    ls_answers (events b) = [meshes] /\
    relatives_answers (events b) = parents /\
    truthy meshes = true /\
    List.length parents = List.length meshes /\
    selected (events b) =
      (if truthy (transforms_of parents)
       then [transforms_of parents] else []) /\
    reported_size output_path (answers exists_answer (events b))
                  (answers getsize_answer (events b)) z.
Proof.
  unfold succeeded, run_export, exec. cbn [exit stdout trace].
  destruct (export_to_obj_run input_path output_path w)
    as (res & He & Hr & Hp). cbn zeta.
  intros Hs.
  destruct (obj_try_body_cases input_path output_path w)
    as [meshes parents z Hres Hls Hrel Hpr Hra Htr Hlen Hsel Hsz Hex
       |Hres Hls Hpr Hra Hsel Hex
       |c e Hres Hpr Hra].
  - exists meshes, parents, z, res. rewrite Hres in Hp.
    rewrite He, Hp, Hpr. auto 10.
  - exfalso. rewrite Hres in Hr, Hp. cbn [isinstance_Exception] in *.
    rewrite Hp, Hpr in Hs.
    destruct Hs as [Hs|(l & [<-|[]] & Hs)].
    + destruct res; rewrite Hr in Hs; now apply PyFacts.toplevel_raise in Hs.
    + discriminate.
  - exfalso. rewrite Hres in Hr, Hp. rewrite Hp, Hpr in Hs.
    destruct Hs as [Hs|(l & Hl & Hs)].
    + destruct res; rewrite Hr in Hs; now apply PyFacts.toplevel_raise in Hs.
    + destruct (isinstance_Exception e); [|destruct Hl].
      destruct Hl as [<-|[]]. discriminate.
Qed.

(** A successful call ran the body of its [try] to the end. *)
Lemma succeeded_result input_path output_path w :
  succeeded (run_export host input_path output_path w) ->
  result (try_body host input_path output_path w) = Ret tt.
Proof.
  unfold succeeded, run_export, exec. cbn [exit stdout].
  destruct (export_to_obj_run input_path output_path w)
    as (res & _ & Hr & Hp). cbn zeta in *.
  intros Hs.
  destruct (obj_try_body_cases input_path output_path w)
    as [meshes parents z Hres Hls Hrel Hpr Hra Htr Hlen Hsel Hsz Hex
       |Hres Hls Hpr Hra Hsel Hex
       |c e Hres Hpr Hra]; [exact Hres| |]; exfalso;
    rewrite Hres in Hr, Hp; cbn [isinstance_Exception] in *;
    rewrite Hp, Hpr in Hs.
  - destruct Hs as [Hs|(l & [<-|[]] & Hs)]; [|discriminate].
    destruct res; rewrite Hr in Hs; now apply PyFacts.toplevel_raise in Hs.
  - destruct Hs as [Hs|(l & Hl & Hs)].
    + destruct res; rewrite Hr in Hs; now apply PyFacts.toplevel_raise in Hs.
    + destruct (isinstance_Exception e); [|destruct Hl].
      destruct Hl as [<-|[]]. discriminate.
Qed.

(** When the body of the [try] runs to the end, the export has returned
    before anything is asked about a file: no [os.path.exists] or
    [os.path.getsize] query precedes it. *)
Lemma try_body_measured_after_export input_path output_path w :
  result (try_body host input_path output_path w) = Ret tt ->
  exists pre x rest,
    events (try_body host input_path output_path w) =
      (pre ++
       Ev (FileExport output_path true "OBJexport" true obj_options) (Ret x)
       :: rest)%list /\
    answers exists_answer pre = [] /\
    answers getsize_answer pre = [].
Proof.
  pattern (try_body host input_path output_path w).
  match goal with |- ?P _ => set (Q := P) end.
  rewrite <- (PyFacts.after_nil (try_body host input_path output_path w)).
  unfold try_body.
  repeat step host.
  all: subst Q; cbv beta; cbn [result events].
  all: try (intros [=]; fail).
  all: intros _.
  all: match goal with
       | |- exists _ _ _, ?lhs = _ /\ _ =>
           let t := fresh "t" in
           let Ht := fresh "Ht" in
           remember lhs as t eqn:Ht;
           rewrite <- ?app_assoc in Ht; cbn [app] in Ht; subst t
       end.
  all: match goal with
       | |- exists _ _ _,
             ?a :: ?b :: (?q ++ Ev (FileExport _ _ _ _ _) (Ret ?x) :: ?rest)%list
             = _ /\ _ =>
           exists ([a; b] ++ q)%list, x, rest
       | |- exists _ _ _,
             ?a :: ?b ::
             (?q ++ ?s :: Ev (FileExport _ _ _ _ _) (Ret ?x) :: ?rest)%list
             = _ /\ _ =>
           exists ([a; b] ++ q ++ [s])%list, x, rest
       end.
  all: (split; [rewrite <- ?app_assoc; reflexivity|]).
  all: split; obs; reflexivity.
Qed.

Lemma transforms_of_orphans parents : forall acc,
  Forall (fun p => truthy_opt p = false) parents ->
  fold_left extend_if parents acc = acc.
Proof.
  induction parents as [|p l IH]; intros acc H; [reflexivity|].
  inversion H as [|? ? Hp Hl]; subst. cbn [fold_left].
  rewrite IH by assumption.
  destruct p as [[|x q]|]; try reflexivity. discriminate.
Qed.

Lemma try_body_orphans input_path output_path w :
  forall meshes,
    ls_answers (events (try_body host input_path output_path w))
      = [meshes] ->
    meshes <> [] ->
    List.length
      (relatives_answers (events (try_body host input_path output_path w)))
      = List.length meshes ->
    Forall (fun p => truthy_opt p = false)
      (relatives_answers (events (try_body host input_path output_path w))) ->
    selected (events (try_body host input_path output_path w)) = [] /\
    exists a queries r rest,
      events (try_body host input_path output_path w) =
        Ev (FileOpen input_path true) (Ret a) ::
        Ev (Ls "mesh") (Ret meshes) ::
        (queries ++
         Ev (FileExport output_path true "OBJexport" true obj_options) r ::
         rest)%list /\
      map (@ev_call _ _) queries = map (fun m => ListRelatives m true) meshes.
Proof.
  pattern (try_body host input_path output_path w).
  match goal with |- ?P _ => set (Q := P) end.
  rewrite <- (PyFacts.after_nil (try_body host input_path output_path w)).
  unfold try_body.
  repeat step host.
  all: subst Q; cbv beta; intros meshes; obs.
  all: try (intros [=]; fail).
  all: try (intros [= <-] Hne; congruence).
  all: intros [= <-] Hne Hlen Horph.
  all: try lia.
  all: try (rewrite (transforms_of_orphans _ [] Horph) in *; discriminate).
  all: split; [reflexivity|].
  all: match goal with
       | |- exists _ _ _ _, ?lhs = _ /\ _ =>
           let t := fresh "t" in
           let Ht := fresh "Ht" in
           remember lhs as t eqn:Ht;
           rewrite <- ?app_assoc in Ht; cbn [app] in Ht; subst t
       end.
  all: exists a, (events (collect_transforms host a0 w1)); do 2 eexists;
    (split; [ reflexivity | rewrite C, H2, firstn_all; reflexivity ]).
Qed.

Lemma raised_uninit (res : Py.res (ret_ty StandaloneUninitialize)) :
  raised [Ev StandaloneUninitialize res] =
  match res with
  | Ret _ => []
  | Raise e => [(StandaloneUninitialize, e)]
  end.
Proof. now destruct res. Qed.

Lemma obj_exception_reported argv w c e :
  In (c, e) (raised (trace (run_script host argv w))) ->
  is_initialize c = false ->
  is_uninitialize c = false ->
  isinstance_Exception e = true ->
  stdout (run_script host argv w) = [error_line (str e)] /\
  (raised (trace (run_script host argv w)) = [(c, e)] ->
   exit (run_script host argv w) = Exited 1).
Proof.
  unfold run_script, exec. cbn [trace stdout exit].
  pose proof (main_run argv w) as R.
  destruct (host StandaloneInitialize w) as [[a|e0] w'].
  2:{ rewrite R. cbn. intros [[= <- <-]|[]]. discriminate. }
  destruct (getitem argv 1) as [i|e1];
    [destruct (getitem argv 2) as [o|e2]|]; rewrite R;
    try (cbn; tauto).
  unfold after. cbn [result events printed app].
  destruct (export_to_obj_run i o w') as (res & He & Hr & Hp).
  cbn zeta in *. rewrite He, Hp. clear He Hp.
  rewrite PyFacts.raised_cons_ret, PyFacts.raised_app, raised_uninit.
  intros Hin Hi Hu Hexc.
  assert (Hb : In (c, e) (raised (events (try_body host i o w')))).
  { apply in_app_or in Hin. destruct Hin as [H|H]; [exact H|].
    destruct res; [destruct H|]. destruct H as [[= <- <-]|[]]. discriminate. }
  destruct (obj_try_body_cases i o w')
    as [meshes parents z Hres Hls Hrel Hpr Hra Htr Hlen Hsel Hsz Hex
       |Hres Hls Hpr Hra Hsel Hex
       |c' e' Hres Hpr Hra];
    rewrite Hra in Hb; try (now destruct Hb).
  destruct Hb as [[= <- <-]|[]].
  rewrite Hres in Hr |- *. rewrite Hexc in Hr |- *. rewrite Hpr, Hra.
  split; [reflexivity|].
  destruct res as [u|e2]; [now rewrite Hr|]. discriminate.
Qed.

Lemma obj_one_status_line argv w :
  2 < List.length argv ->
  ~ In StandaloneInitialize
       (map fst (raised (trace (run_script host argv w)))) ->
  ~ In StandaloneUninitialize
       (map fst (raised (trace (run_script host argv w)))) ->
  Forall (fun ce => isinstance_Exception (snd ce) = true)
         (raised (trace (run_script host argv w))) ->
  one_status_line (run_script host argv w).
Proof.
  intros Hlen. unfold one_status_line, run_script, exec.
  cbn [trace stdout exit].
  pose proof (main_run argv w) as R.
  destruct (host StandaloneInitialize w) as [[a|e0] w'].
  2:{ rewrite R. cbn. tauto. }
  destruct (PyFacts.getitem_long argv 1 ltac:(lia)) as [i Hi].
  destruct (PyFacts.getitem_long argv 2 ltac:(lia)) as [o Ho].
  rewrite Hi, Ho in R. rewrite R. clear R.
  unfold after. cbn [result events printed app].
  destruct (export_to_obj_run i o w') as (res & He & Hr & Hp).
  cbn zeta in *. rewrite He, Hp. clear He Hp.
  rewrite PyFacts.raised_cons_ret, PyFacts.raised_app, raised_uninit.
  intros _ Hdown Hall. apply Forall_app in Hall. destruct Hall as [Hb _].
  destruct res as [u|x].
  2:{ exfalso. apply Hdown. rewrite map_app. apply in_or_app.
      right. now left. }
  destruct (obj_try_body_cases i o w')
    as [meshes parents z Hres Hls Hrel Hpr Hra Htr Hlen' Hsel Hsz Hex
       |Hres Hls Hpr Hra Hsel Hex
       |c' e' Hres Hpr Hra];
    rewrite Hres in *; cbn [isinstance_Exception] in *.
  - exists (success_line (List.length meshes) o z). rewrite Hpr, Hr.
    split; [reflexivity|]. left. split; [reflexivity|].
    now exists (List.length meshes), o, z.
  - exists (error_line no_mesh_msg). rewrite Hpr, Hr.
    split; [reflexivity|]. right. split; [reflexivity|].
    now exists no_mesh_msg.
  - rewrite Hra in Hb. inversion Hb as [|? ? He' _]; subst. cbn in He'.
    rewrite He' in *.
    exists (error_line (str e')). rewrite Hpr, Hr.
    split; [reflexivity|]. right. split; [reflexivity|].
    now exists (str e').
Qed.

End Body.

End MayaFacts.

(** * Claims about the GLB exporter *)

Section GlbClaims.

Import Py.
Context {W : Type} (host : Blender.host_t W).

(** C2: the usage guard compares the length of the whole command line
    with 4, so a command line of four or more words with fewer than two
    positional arguments after the separator passes it: the script then
    dies on [args[0]], [args[1]] or [sys.argv.index], with no status line
    and no host call. *)
Theorem usage_guard_misses_short_args (argv : list string) (w : W) :
  4 <= List.length argv ->
  List.length (Blender.script_args argv) < 2 ->
  trace (Blender.run_script host argv w) = [] /\
  stdout (Blender.run_script host argv w) = [] /\
  (exit (Blender.run_script host argv w) = Uncaught index_error \/
   exit (Blender.run_script host argv w) = Uncaught Blender.value_error).
Proof.
  intros H4 H2. unfold Blender.run_script, exec, Blender.main.
  rewrite <- (PyFacts.after_nil (bind _ _ w)).
  rewrite PyFacts.bind_if.
  destruct (Nat.ltb_spec (List.length argv) 4) as [H'|_]; [lia|].
  repeat step_pure.
  pose proof (BlenderFacts.find_index_script_args argv) as F.
  unfold list_index.
  destruct (find_index "--" argv) as [i|].
  - rewrite F.
    destruct (Blender.script_args argv) as [|x [|y l]]; cbn in H2; try lia.
    + cbn. auto.
    + repeat step_pure. cbn. auto.
  - cbn. auto.
Qed.

(** C4: when both scene listings, the one after the library load and the
    one after the fallback open, hold no mesh-typed object, the exporter
    prints the "no mesh" error record, exits with code 1, and neither
    exports nor measures an output file. *)
Theorem glb_no_mesh_in_either_path (input_path output_path : string)
  (w : W) :
  map Blender.count_mesh
      (Blender.scene_answers
         (trace (Blender.run_export host input_path output_path w)))
    = [0; 0] ->
  stdout (Blender.run_export host input_path output_path w)
    = [error_line no_mesh_msg] /\
  exit (Blender.run_export host input_path output_path w) = Exited 1 /\
  count_calls Blender.is_export
    (trace (Blender.run_export host input_path output_path w)) = 0 /\
  count_calls Blender.is_getsize
    (trace (Blender.run_export host input_path output_path w)) = 0.
Proof.
  unfold Blender.run_export, exec. cbn [trace stdout exit].
  pose proof (BlenderFacts.export_to_glb_run host input_path output_path w)
    as R.
  cbn zeta in R.
  destruct (host (Blender.ReadFactorySettings true) w) as [[a|e] w'].
  2:{ rewrite R. cbn. discriminate. }
  destruct R as [Ev Hr]. rewrite Ev.
  rewrite BlenderFacts.scene_answers_cons_reset, !PyFacts.count_calls_cons.
  cbn [ev_call Blender.is_export Blender.is_getsize Nat.add].
  destruct (BlenderFacts.glb_try_body_cases host input_path output_path w')
    as [n z objs Hres Hsc Hpr Hra Hn Hc Hsz Hex
       |objs0 objs Hres Hsc Hpr Hra H0 H1 Hop Hex Hsz
       |c e Hres Hpr Hra Hsc];
    rewrite Hres in Hr; cbn [isinstance_Exception] in Hr.
  - intros H. exfalso.
    destruct Hsc as [[Hsc _]|(objs0 & Hsc & _)]; rewrite Hsc in H;
      cbn in H; congruence.
  - intros _. destruct Hr as [-> ->]. rewrite Hpr, Hex, Hsz. now cbn.
  - intros H. exfalso.
    destruct Hsc as [[_ [Hsc|(objs & Hsc & Hn)]]
                    |[_ (objs0 & [Hsc|(objs & Hsc & Hn)] & H0)]];
      rewrite Hsc in H; cbn in H; congruence.
Qed.

(** C6: [open_mainfile] is called at most once, on the input path, and
    exactly when the first scene listing came back without a mesh-typed
    object; when it is called and the run ends normally, the reported
    [meshCount] is the number of mesh-typed objects of the second
    listing.  The two listings are these: the first is the listing of the
    scene [bpy.context.scene] answered before the links, the scene every
    loaded object was linked to, and [open_mainfile] is the call right
    after it; the second is the listing of the scene [bpy.context.scene]
    answers when it is asked again right after [open_mainfile] has
    returned, that is, of the newly opened scene.  So [open_mainfile] is
    called exactly when the load returned, its objects were linked into
    the scene, and the listing of that scene holds no mesh-typed
    object. *)
Theorem glb_fallback (input_path output_path : string) (w : W) :
  (Blender.opened
     (trace (Blender.run_export host input_path output_path w)) = [] \/
   Blender.opened
     (trace (Blender.run_export host input_path output_path w))
     = [input_path]) /\
  (Blender.opened
     (trace (Blender.run_export host input_path output_path w))
     = [input_path] <->
   exists objs rest,
     Blender.scene_answers
       (trace (Blender.run_export host input_path output_path w))
       = objs :: rest /\
     Blender.count_mesh objs = 0) /\
  (Blender.opened
     (trace (Blender.run_export host input_path output_path w))
     = [input_path] ->
   exit (Blender.run_export host input_path output_path w) = Finished ->
   exists objs0 objs z,
     Blender.scene_answers
       (trace (Blender.run_export host input_path output_path w))
       = [objs0; objs] /\
     stdout (Blender.run_export host input_path output_path w)
       = [success_line (Blender.count_mesh objs) output_path z]) /\
  (Blender.opened
     (trace (Blender.run_export host input_path output_path w))
     = [input_path] ->
   exists a objects s1 links a1 objs0 res rest,
     trace (Blender.run_export host input_path output_path w) =
       (Ev (Blender.ReadFactorySettings true) (Ret a) ::
        Ev (Blender.LibrariesLoad input_path false) (Ret objects) ::
        Ev Blender.ContextScene (Ret s1) ::
        links ++
        Ev (Blender.SelectAll "DESELECT") (Ret a1) ::
        Ev (Blender.SceneObjects s1) (Ret objs0) ::
        Ev (Blender.OpenMainfile input_path) res :: rest)%list /\
     map (@ev_call _ _) links =
       map (Blender.CollectionLink s1) (Blender.loaded objects) /\
     raised links = [] /\
     Blender.count_mesh objs0 = 0 /\
     match res with
     | Raise _ => rest = []
     | Ret _ =>
         exists res1 rest1,
           rest = Ev Blender.ContextScene res1 :: rest1 /\
           match res1 with
           | Raise _ => rest1 = []
           | Ret s2 =>
               exists res2 rest2,
                 rest1 = Ev (Blender.SceneObjects s2) res2 :: rest2 /\
                 match res2 with
                 | Raise _ => rest2 = []
                 | Ret objs =>
                     exit (Blender.run_export host input_path output_path w)
                       = Finished ->
                     exists z,
                       stdout
                         (Blender.run_export host input_path output_path w)
                       = [success_line (Blender.count_mesh objs)
                            output_path z]
                 end
           end
     end) /\
  (Blender.opened
     (trace (Blender.run_export host input_path output_path w))
     = [input_path] <->
   exists a objects s1 links a1 objs0 rest,
     trace (Blender.run_export host input_path output_path w) =
       (Ev (Blender.ReadFactorySettings true) (Ret a) ::
        Ev (Blender.LibrariesLoad input_path false) (Ret objects) ::
        Ev Blender.ContextScene (Ret s1) ::
        links ++
        Ev (Blender.SelectAll "DESELECT") (Ret a1) ::
        Ev (Blender.SceneObjects s1) (Ret objs0) :: rest)%list /\
     map (@ev_call _ _) links =
       map (Blender.CollectionLink s1) (Blender.loaded objects) /\
     raised links = [] /\
     Blender.count_mesh objs0 = 0).
Proof.
  match goal with
  | |- ?A /\ ?B /\ ?C /\ ?D /\ ?E =>
      assert (HABC : A /\ B /\ C);
      [| assert (HD : D);
         [| split; [apply HABC|];
            split; [apply HABC|];
            split; [apply HABC|];
            split; [exact HD|] ] ]
  end.
  {
  unfold Blender.run_export, exec. cbn [trace stdout exit].
  pose proof (BlenderFacts.export_to_glb_run host input_path output_path w)
    as R.
  cbn zeta in R.
  destruct (host (Blender.ReadFactorySettings true) w) as [[a|e] w'].
  2:{ rewrite R. cbn. repeat split; try (now left); try discriminate.
      intros (objs & rest & H & _). discriminate. }
  destruct R as [Ev Hr]. rewrite Ev.
  rewrite BlenderFacts.scene_answers_cons_reset,
    BlenderFacts.opened_cons_reset.
  destruct (BlenderFacts.glb_try_body_cases host input_path output_path w')
    as [n z objs Hres Hsc Hpr Hra Hn Hc Hsz Hex
       |objs0 objs Hres Hsc Hpr Hra H0 H1 Hop Hex Hsz
       |c e Hres Hpr Hra Hsc];
    rewrite Hres in Hr; cbn [isinstance_Exception] in Hr.
  - destruct Hr as [Hr ->].
    destruct Hsc as [[Hsc Hop]|(objs0 & Hsc & H0 & Hop)];
      rewrite Hsc, Hop.
    + repeat split; try (now left); try discriminate.
      intros (o & rest & [= <- <-] & H). congruence.
    + repeat split; try (now right); eauto.
      intros _ _. exists objs0, objs, z. now rewrite Hpr, Hc.
  - destruct Hr as [Hr ->]. rewrite Hsc, Hop, Hr.
    repeat split; try (now right); eauto. discriminate.
  - assert (Hexit : toplevel
                      (result (Blender.export_to_glb host input_path
                                 output_path w)) <> Finished).
    { destruct (isinstance_Exception e); destruct Hr as [-> _];
        [discriminate|].
      apply PyFacts.toplevel_raise. }
    destruct Hsc as [[Hop [Hsc|(objs & Hsc & Hn)]]
                    |[Hop (objs0 & [Hsc|(objs & Hsc & Hn)] & H0)]];
      rewrite Hsc, Hop; repeat split; try (now left); try (now right);
      try discriminate; eauto; try contradiction.
    + intros (o & rest & [=] & _).
    + intros (o & rest & [= <- <-] & H). congruence.
  }
  { unfold Blender.run_export, exec. cbn [trace stdout exit].
    pose proof (BlenderFacts.export_to_glb_run host input_path
                  output_path w) as R.
    cbn zeta in R.
    destruct (host (Blender.ReadFactorySettings true) w) as [[a|e] w'].
    2:{ rewrite R. cbn. discriminate. }
    destruct R as [Hev Hr]. rewrite Hev.
    rewrite BlenderFacts.opened_cons_reset. intros Hop.
    destruct (BlenderFacts.glb_try_body_fallback_shape host input_path
                output_path w')
      as [H0|(objects & s1 & links & a1 & objs0 & res & rest
              & Ht & Hl & Hra & Hc & Hm)];
      [rewrite H0 in Hop; discriminate|].
    assert (Hfin :
              toplevel (result (Blender.export_to_glb host input_path
                                  output_path w)) = Finished ->
              result (Blender.try_body host input_path output_path w')
                = Ret tt /\
              printed (Blender.export_to_glb host input_path
                         output_path w) =
                printed (Blender.try_body host input_path output_path w')).
    { destruct (result (Blender.try_body host input_path output_path w'))
        as [[]|e].
      - intros _. destruct Hr as [_ Hp]. auto.
      - intros H. exfalso.
        destruct (Py.isinstance_Exception e); destruct Hr as [Hr _];
          rewrite Hr in H;
          [discriminate|now apply PyFacts.toplevel_raise in H]. }
    exists a, objects, s1, links, a1, objs0, res, rest.
    rewrite Ht. do 4 (split; [auto|]).
    destruct res as [x|e]; [|exact Hm].
    destruct Hm as (res1 & rest1 & Hrest & Hm).
    exists res1, rest1. split; [exact Hrest|].
    destruct res1 as [s2|e]; [|exact Hm].
    destruct Hm as (res2 & rest2 & Hrest1 & Hm).
    exists res2, rest2. split; [exact Hrest1|].
    destruct res2 as [objs|e]; [|exact Hm].
    intros Hf. destruct (Hfin Hf) as [Hres Hp].
    destruct (Hm Hres) as [z Hz]. exists z. now rewrite Hp. }
  { split.
    - intros Hop.
      destruct (HD Hop)
        as (a & objects & s1 & links & a1 & objs0 & res & rest
            & Ht & Hl & Hra & Hc & _).
      exists a, objects, s1, links, a1, objs0,
        (Ev (Blender.OpenMainfile input_path) res :: rest).
      auto.
    - intros (a & objects & s1 & links & a1 & objs0 & rest
              & Ht & Hl & Hra & Hc).
      apply (proj2 (proj1 (proj2 HABC))).
      exists objs0, (Blender.scene_answers rest).
      split; [|exact Hc]. rewrite Ht.
      pose proof (BlenderFacts.links_no_listing links s1 _ Hl) as Hn.
      unfold Blender.scene_answers, answers in *.
      cbn [flat_map app Blender.scene_answer].
      rewrite flat_map_app, Hn. reflexivity. }
Qed.

End GlbClaims.

(** * Claims about the OBJ exporter *)

Section ObjClaims.

Import Py.
Context {W : Type} (host : Maya.host_t W).

(** C3, as amended: in every run that reaches [export_to_obj] (both
    positional arguments are present and the runtime initialisation did
    not raise), [maya.standalone.uninitialize()] is called exactly once,
    and it is the last host call of the process. *)
Theorem uninitialize_once_last (argv : list string) (w : W) :
  2 < List.length argv ->
  ~ In Maya.StandaloneInitialize
       (map fst (raised (trace (Maya.run_script host argv w)))) ->
  count_calls Maya.is_uninitialize (trace (Maya.run_script host argv w))
    = 1 /\
  exists calls res,
    trace (Maya.run_script host argv w) =
      (calls ++ [Ev Maya.StandaloneUninitialize res])%list.
Proof.
  intros Hlen. unfold Maya.run_script, exec. cbn [trace].
  pose proof (MayaFacts.main_run host argv w) as R.
  destruct (host Maya.StandaloneInitialize w) as [[a|e0] w'].
  2:{ rewrite R. cbn. tauto. }
  destruct (PyFacts.getitem_long argv 1 ltac:(lia)) as [i Hi].
  destruct (PyFacts.getitem_long argv 2 ltac:(lia)) as [o Ho].
  rewrite Hi, Ho in R. rewrite R. clear R.
  unfold after. cbn [events app].
  destruct (MayaFacts.export_to_obj_run host i o w') as (res & He & _).
  cbn zeta in He. rewrite He. intros _.
  split.
  - assert (H0 : count_calls Maya.is_uninitialize
                   (events (Maya.try_body host i o w')) = 0).
    { apply (PyFacts.count_calls_skip _
               (fun c => negb (Maya.is_initialize c
                               || Maya.is_uninitialize c)));
        [|apply MayaFacts.try_body_emits].
      intros c H. apply negb_true_iff, orb_false_elim in H. apply H. }
    rewrite PyFacts.count_calls_cons, PyFacts.count_calls_app, H0.
    reflexivity.
  - exists (Ev Maya.StandaloneInitialize (Ret a)
              :: events (Maya.try_body host i o w')), res.
    reflexivity.
Qed.

(** C7: in a successful run the success record carries the number of mesh
    shapes answered by [cmds.ls], the output path that was given, and the
    size of the output file: what [os.path.getsize] answered for the
    output path, or 0 when [os.path.exists] said that no file is at the
    output path.  The output path is the only path the run asks about,
    and it asks after the export has returned. *)
Theorem obj_success_report (input_path output_path : string) (w : W) :
  succeeded (Maya.run_export host input_path output_path w) ->
  exists meshes z,
    Maya.ls_answers
      (trace (Maya.run_export host input_path output_path w)) = [meshes] /\
    meshes <> [] /\
    Maya.reported_size output_path
      (answers Maya.exists_answer
         (trace (Maya.run_export host input_path output_path w)))
      (answers Maya.getsize_answer
         (trace (Maya.run_export host input_path output_path w)))
      z /\
    stdout (Maya.run_export host input_path output_path w) =
      [success_line (List.length meshes) output_path z] /\
    exists pre x rest,
      trace (Maya.run_export host input_path output_path w) =
        (pre ++
         Ev (Maya.FileExport output_path true "OBJexport" true
               Maya.obj_options) (Ret x)
         :: rest)%list /\
      answers Maya.exists_answer pre = [] /\
      answers Maya.getsize_answer pre = [].
Proof.
  intros Hs.
  destruct (MayaFacts.succeeded_body host input_path output_path w Hs)
    as (meshes & parents & z & res & Ht & Ho & Hls & Hrel & Htr & Hlen
        & Hsel & Hsz).
  destruct (MayaFacts.try_body_measured_after_export host input_path
              output_path w
              (MayaFacts.succeeded_result host input_path output_path w Hs))
    as (pre & x & rest & Hev & He & Hg).
  exists meshes, z. rewrite Ht. unfold Maya.ls_answers.
  rewrite !MayaFacts.answers_uninit by reflexivity.
  repeat split; auto.
  - intros ->. discriminate.
  - exists pre, x, (rest ++ [Ev Maya.StandaloneUninitialize res])%list.
    rewrite Hev, <- app_assoc. auto.
Qed.

(** C8: the runtime is initialised first, whatever the command line;
    with fewer than two positional arguments nothing else is called, in
    particular not [uninitialize], nothing is printed, and once the
    initialisation has returned the process dies of an uncaught
    [IndexError]. *)
Theorem obj_missing_args (argv : list string) (w : W) :
  (exists res rest,
     trace (Maya.run_script host argv w) =
       Ev Maya.StandaloneInitialize res :: rest) /\
  (List.length argv < 3 ->
   stdout (Maya.run_script host argv w) = [] /\
   count_calls Maya.is_uninitialize (trace (Maya.run_script host argv w))
     = 0 /\
   exists res,
     trace (Maya.run_script host argv w) =
       [Ev Maya.StandaloneInitialize res] /\
     forall a, res = Ret a ->
               exit (Maya.run_script host argv w) = Uncaught index_error).
Proof.
  unfold Maya.run_script, exec. cbn [trace stdout exit].
  pose proof (MayaFacts.main_run host argv w) as R.
  destruct (host Maya.StandaloneInitialize w) as [[a|e0] w'].
  2:{ rewrite R. cbn. split; [eauto|]. intros _.
      repeat split. eexists. split; [reflexivity|]. discriminate. }
  assert (Hshort : List.length argv < 3 ->
                   Maya.main host argv w =
                   Out (Raise index_error) w'
                       [Ev Maya.StandaloneInitialize (Ret a)] []).
  { intros H. destruct (getitem argv 1) as [i|e1]; [|exact R].
    rewrite (PyFacts.getitem_short argv 2) in R by lia. exact R. }
  split.
  - destruct (getitem argv 1) as [i|e1];
      [destruct (getitem argv 2) as [o|e2]|]; rewrite R; cbn; eauto.
  - intros H. rewrite (Hshort H). cbn. repeat split.
    eexists. split; [reflexivity|]. reflexivity.
Qed.

(** C9: in a successful run [meshCount] is the length of the list
    answered by [cmds.ls], whatever [cmds.listRelatives] answered for the
    shapes: one answer per shape, each of them [None], empty, or a list
    that may repeat a parent already seen; these answers only decide the
    list passed to [cmds.select]. *)
Theorem obj_mesh_count_ignores_parents (input_path output_path : string)
  (w : W) :
  succeeded (Maya.run_export host input_path output_path w) ->
  exists meshes parents z,
    Maya.ls_answers
      (trace (Maya.run_export host input_path output_path w)) = [meshes] /\
    Maya.relatives_answers
      (trace (Maya.run_export host input_path output_path w)) = parents /\
    List.length parents = List.length meshes /\
    Maya.selected (trace (Maya.run_export host input_path output_path w)) =
      (if Maya.truthy (Maya.transforms_of parents)
       then [Maya.transforms_of parents] else []) /\
    stdout (Maya.run_export host input_path output_path w) =
      [success_line (List.length meshes) output_path z].
Proof.
  intros Hs.
  destruct (MayaFacts.succeeded_body host input_path output_path w Hs)
    as (meshes & parents & z & res & Ht & Ho & Hls & Hrel & Htr & Hlen
        & Hsel & Hsz).
  exists meshes, parents, z. rewrite Ht.
  unfold Maya.ls_answers, Maya.relatives_answers, Maya.selected.
  rewrite !MayaFacts.answers_uninit by reflexivity.
  repeat split; auto.
Qed.

(** C10: when [cmds.ls] answered at least one mesh shape and every
    [cmds.listRelatives] query came back without a parent, [cmds.select]
    is never called, and the calls made after opening the file are the
    mesh query, one parent query per shape, and then the OBJ export with
    [exportSelected=True]: the export runs on the selection the opened
    file left active. *)
Theorem obj_orphan_shapes_exported (input_path output_path : string)
  (w : W) (meshes : list string) :
  Maya.ls_answers (trace (Maya.run_export host input_path output_path w))
    = [meshes] ->
  meshes <> [] ->
  List.length
    (Maya.relatives_answers
       (trace (Maya.run_export host input_path output_path w))) =
    List.length meshes ->
  Forall (fun p => Maya.truthy_opt p = false)
    (Maya.relatives_answers
       (trace (Maya.run_export host input_path output_path w))) ->
  Maya.selected (trace (Maya.run_export host input_path output_path w))
    = [] /\
  exists a queries r rest,
    trace (Maya.run_export host input_path output_path w) =
      Ev (Maya.FileOpen input_path true) (Ret a) ::
      Ev (Maya.Ls "mesh") (Ret meshes) ::
      (queries ++
       Ev (Maya.FileExport output_path true "OBJexport" true
             Maya.obj_options) r ::
       rest)%list /\
    map (@ev_call _ _) queries =
      map (fun m => Maya.ListRelatives m true) meshes.
Proof.
  unfold Maya.run_export, exec. cbn [trace].
  destruct (MayaFacts.export_to_obj_run host input_path output_path w)
    as (res & He & _). cbn zeta in He. rewrite He.
  unfold Maya.ls_answers, Maya.relatives_answers, Maya.selected.
  rewrite !MayaFacts.answers_uninit by reflexivity.
  intros Hls Hne Hlen Horph.
  destruct (MayaFacts.try_body_orphans host input_path output_path w meshes
              Hls Hne Hlen Horph)
    as (Hsel & a & queries & r & rest & Ht & Hq).
  split; [exact Hsel|].
  exists a, queries, r, (rest ++ [Ev Maya.StandaloneUninitialize res])%list.
  split; [|exact Hq].
  rewrite Ht. cbn [app]. rewrite <- app_assoc. reflexivity.
Qed.

End ObjClaims.

(** * Claims about both scripts *)

(** C1, as amended: when a host call made inside the [try] block (any
    call but the scene reset for the GLB exporter; any call but the
    runtime set-up and tear-down for the OBJ exporter) raises an
    exception derived from [Exception], the script prints exactly one
    line, the error record with [str(e)], and calls [sys.exit(1)]: the
    GLB exporter exits with code 1, and so does the OBJ exporter when no
    other call raised. *)
Theorem exception_in_try_reported :
  (forall (W : Type) (host : Blender.host_t W) (argv : list string) (w : W)
          (c : Blender.call) (e : Py.py_exc),
      In (c, e) (Py.raised (Py.trace (Blender.run_script host argv w))) ->
      Blender.is_reset c = false ->
      Py.isinstance_Exception e = true ->
      Py.stdout (Blender.run_script host argv w) = [error_line (Py.str e)] /\
      Py.exit (Blender.run_script host argv w) = Py.Exited 1) /\
  (forall (W : Type) (host : Maya.host_t W) (argv : list string) (w : W)
          (c : Maya.call) (e : Py.py_exc),
      In (c, e) (Py.raised (Py.trace (Maya.run_script host argv w))) ->
      Maya.is_initialize c = false ->
      Maya.is_uninitialize c = false ->
      Py.isinstance_Exception e = true ->
      Py.stdout (Maya.run_script host argv w) = [error_line (Py.str e)] /\
      (Py.raised (Py.trace (Maya.run_script host argv w)) = [(c, e)] ->
       Py.exit (Maya.run_script host argv w) = Py.Exited 1)).
Proof.
  split; intros W host argv w c e.
  - apply BlenderFacts.glb_exception_reported.
  - apply MayaFacts.obj_exception_reported.
Qed.

(** C5, as amended: a run of the GLB exporter stopped by the usage guard,
    or one that made a host call and whose scene reset did not raise, and
    a run of the OBJ exporter with both positional arguments whose
    runtime initialisation and tear-down did not raise, write exactly one
    status line, provided every exception raised by a host call derives
    from [Exception]; and the process ends in one of two ways: normally,
    and the line is the success record, or with exit code 1, and the line
    is an error record. *)
Theorem status_line_protocol :
  (forall (W : Type) (host : Blender.host_t W) (argv : list string) (w : W),
      List.length argv < 4 \/
      Py.trace (Blender.run_script host argv w) <> [] ->
      ~ In (Blender.ReadFactorySettings true)
           (map fst (Py.raised (Py.trace (Blender.run_script host argv w)))) ->
      Forall (fun ce => Py.isinstance_Exception (snd ce) = true)
             (Py.raised (Py.trace (Blender.run_script host argv w))) ->
      one_status_line (Blender.run_script host argv w)) /\
  (forall (W : Type) (host : Maya.host_t W) (argv : list string) (w : W),
      2 < List.length argv ->
      ~ In Maya.StandaloneInitialize
           (map fst (Py.raised (Py.trace (Maya.run_script host argv w)))) ->
      ~ In Maya.StandaloneUninitialize
           (map fst (Py.raised (Py.trace (Maya.run_script host argv w)))) ->
      Forall (fun ce => Py.isinstance_Exception (snd ce) = true)
             (Py.raised (Py.trace (Maya.run_script host argv w))) ->
      one_status_line (Maya.run_script host argv w)).
Proof.
  split; intros W host argv w.
  - apply BlenderFacts.glb_one_status_line.
  - apply MayaFacts.obj_one_status_line.
Qed.

(** * The claims on the reference hosts *)

(** The GLB exporter on the three reference files. *)
Example glb_cube_run :
  Py.stdout (Blender.run_script (Blender.sim Blender.cube_file)
               Blender.blender_argv [])
    = [success_line 1 "out.glb" 1024] /\
  Py.exit (Blender.run_script (Blender.sim Blender.cube_file)
             Blender.blender_argv []) = Py.Finished.
Proof. split; reflexivity. Qed.

Example glb_short_argv_run :
  Blender.run_script (Blender.sim Blender.cube_file) Blender.short_argv []
    = Py.Run (Py.Uncaught Py.index_error) [] [].
Proof. reflexivity. Qed.

(** The OBJ exporter when two shapes share a parent: three meshes are
    reported, and the shared parent is selected twice. *)
Example obj_three_shapes_run :
  Py.stdout (Maya.run_script (Maya.sim Maya.three_shapes) Maya.maya_argv [])
    = [success_line 3 "out.obj" 4096] /\
  Maya.selected
    (Py.trace (Maya.run_script (Maya.sim Maya.three_shapes)
                 Maya.maya_argv []))
    = [["pCube1"; "pCube1"; "pSphere1"]].
Proof. split; reflexivity. Qed.

(** Without a mesh: the error record, exit code 1, and for the OBJ
    exporter still one call of [uninitialize]. *)
Example glb_empty_run :
  Py.stdout (Blender.run_script (Blender.sim Blender.empty_file)
               Blender.blender_argv [])
    = [error_line no_mesh_msg] /\
  Py.exit (Blender.run_script (Blender.sim Blender.empty_file)
             Blender.blender_argv []) = Py.Exited 1.
Proof. split; reflexivity. Qed.

Example obj_no_shapes_run :
  Py.stdout (Maya.run_script (Maya.sim Maya.no_shapes) Maya.maya_argv [])
    = [error_line no_mesh_msg] /\
  Py.exit (Maya.run_script (Maya.sim Maya.no_shapes) Maya.maya_argv [])
    = Py.Exited 1 /\
  Py.count_calls Maya.is_uninitialize
    (Py.trace (Maya.run_script (Maya.sim Maya.no_shapes) Maya.maya_argv []))
    = 1.
Proof. repeat split; reflexivity. Qed.

(** Shapes without parents are exported all the same; the export left no
    file, so the size reported is 0. *)
Example obj_orphan_shapes_run :
  Py.stdout (Maya.run_script (Maya.sim Maya.orphan_shapes)
               Maya.maya_argv [])
    = [success_line 2 "out.obj" 0].
Proof. reflexivity. Qed.

(** The shape of the two status lines. *)
Example error_line_shape :
  error_line "boom" =
  "{" ++ Json.quote ++ "error" ++ Json.quote ++ ": "
      ++ Json.quote ++ "boom" ++ Json.quote ++ "}".
Proof. reflexivity. Qed.

Example success_line_shape :
  success_line 3 "out.obj" 4096 =
  "EXPORT_RESULT:{" ++ Json.quote ++ "success" ++ Json.quote ++ ": true, "
    ++ Json.quote ++ "meshCount" ++ Json.quote ++ ": 3, "
    ++ Json.quote ++ "outputPath" ++ Json.quote ++ ": "
    ++ Json.quote ++ "out.obj" ++ Json.quote ++ ", "
    ++ Json.quote ++ "fileSize" ++ Json.quote ++ ": 4096}".
Proof. reflexivity. Qed.

(** The two kinds of status line cannot be confused. *)
Lemma status_lines_disjoint (l : string) :
  is_success_line l -> is_error_line l -> False.
Proof.
  intros (n & p & z & ->) (msg & H).
  pose proof (PyFacts.error_line_prefix msg) as P. rewrite <- H in P.
  discriminate P.
Qed.

(** C1 fails as stated: a failing scene reset is not reported. *)
Lemma reset_failure_not_reported :
  In (Blender.ReadFactorySettings true,
      Py.Exc "RuntimeError" "Error: factory reset failed")
     (Py.raised (Py.trace (Blender.run_script Blender.reset_fails
                             Blender.blender_argv []))) /\
  Py.stdout (Blender.run_script Blender.reset_fails Blender.blender_argv [])
    = [] /\
  Py.exit (Blender.run_script Blender.reset_fails Blender.blender_argv [])
    = Py.Uncaught (Py.Exc "RuntimeError" "Error: factory reset failed").
Proof. repeat split. now left. Qed.

Lemma exception_in_try_reported_witness :
  (In (Blender.ExportGltf (Blender.gltf_options "out.glb"),
       Py.Exc "RuntimeError" "Error: export failed")
      (Py.raised (Py.trace (Blender.run_script Blender.export_fails
                              Blender.blender_argv []))) /\
   Py.stdout (Blender.run_script Blender.export_fails
                Blender.blender_argv [])
     = [error_line "Error: export failed"] /\
   Py.exit (Blender.run_script Blender.export_fails Blender.blender_argv [])
     = Py.Exited 1) /\
  (In (Maya.FileOpen "in.mb" true,
       Py.Exc "RuntimeError" "File not found: in.mb")
      (Py.raised (Py.trace (Maya.run_script Maya.open_fails
                              Maya.maya_argv []))) /\
   Py.stdout (Maya.run_script Maya.open_fails Maya.maya_argv [])
     = [error_line "File not found: in.mb"] /\
   Py.exit (Maya.run_script Maya.open_fails Maya.maya_argv [])
     = Py.Exited 1).
Proof.
  split.
  - split; [now left|].
    apply (proj1 exception_in_try_reported _ Blender.export_fails
             Blender.blender_argv []
             (Blender.ExportGltf (Blender.gltf_options "out.glb"))
             (Py.Exc "RuntimeError" "Error: export failed"));
      [now left | reflexivity | reflexivity].
  - split; [now left|].
    destruct (proj2 exception_in_try_reported _ Maya.open_fails
                Maya.maya_argv [] (Maya.FileOpen "in.mb" true)
                (Py.Exc "RuntimeError" "File not found: in.mb")
                (or_introl eq_refl) eq_refl eq_refl eq_refl) as [H1 H2].
    split; [exact H1 | exact (H2 eq_refl)].
Defined.

Lemma usage_guard_misses_short_args_witness :
  4 <= List.length Blender.short_argv /\
  List.length (Blender.script_args Blender.short_argv) < 2 /\
  Py.trace (Blender.run_script (Blender.sim Blender.cube_file)
              Blender.short_argv []) = [] /\
  Py.stdout (Blender.run_script (Blender.sim Blender.cube_file)
               Blender.short_argv []) = [] /\
  (Py.exit (Blender.run_script (Blender.sim Blender.cube_file)
              Blender.short_argv []) = Py.Uncaught Py.index_error \/
   Py.exit (Blender.run_script (Blender.sim Blender.cube_file)
              Blender.short_argv []) = Py.Uncaught Blender.value_error).
Proof.
  split; [cbn; lia|]. split; [cbn; lia|].
  apply (usage_guard_misses_short_args (Blender.sim Blender.cube_file)
           Blender.short_argv []); cbn; lia.
Defined.

(** C3 fails as stated: without arguments the runtime is never shut
    down. *)
Lemma uninitialize_skipped_without_args :
  Py.count_calls Maya.is_uninitialize
    (Py.trace (Maya.run_script (Maya.sim Maya.three_shapes)
                 ["maya_export.py"] [])) = 0 /\
  Py.exit (Maya.run_script (Maya.sim Maya.three_shapes)
             ["maya_export.py"] []) = Py.Uncaught Py.index_error.
Proof. split; reflexivity. Qed.

Lemma uninitialize_once_last_witness :
  2 < List.length Maya.maya_argv /\
  ~ In Maya.StandaloneInitialize
       (map fst (Py.raised (Py.trace (Maya.run_script
                                        (Maya.sim Maya.three_shapes)
                                        Maya.maya_argv [])))) /\
  Py.count_calls Maya.is_uninitialize
    (Py.trace (Maya.run_script (Maya.sim Maya.three_shapes)
                 Maya.maya_argv [])) = 1 /\
  exists calls res,
    Py.trace (Maya.run_script (Maya.sim Maya.three_shapes)
                Maya.maya_argv []) =
      (calls ++ [Py.Ev Maya.StandaloneUninitialize res])%list.
Proof.
  split; [cbn; lia|]. split; [intros []|].
  apply (uninitialize_once_last (Maya.sim Maya.three_shapes)
           Maya.maya_argv []); [cbn; lia | intros []].
Defined.

Lemma glb_no_mesh_in_either_path_witness :
  map Blender.count_mesh
      (Blender.scene_answers
         (Py.trace (Blender.run_export (Blender.sim Blender.empty_file)
                      "in.blend" "out.glb" [])))
    = [0; 0] /\
  Py.stdout (Blender.run_export (Blender.sim Blender.empty_file)
               "in.blend" "out.glb" [])
    = [error_line no_mesh_msg] /\
  Py.exit (Blender.run_export (Blender.sim Blender.empty_file)
             "in.blend" "out.glb" []) = Py.Exited 1 /\
  Py.count_calls Blender.is_export
    (Py.trace (Blender.run_export (Blender.sim Blender.empty_file)
                 "in.blend" "out.glb" [])) = 0 /\
  Py.count_calls Blender.is_getsize
    (Py.trace (Blender.run_export (Blender.sim Blender.empty_file)
                 "in.blend" "out.glb" [])) = 0.
Proof.
  split; [reflexivity|].
  apply (glb_no_mesh_in_either_path (Blender.sim Blender.empty_file)
           "in.blend" "out.glb" []).
  reflexivity.
Defined.

(** C5 fails as stated: without the output path the OBJ exporter writes
    no status line at all. *)
Lemma no_status_line_without_output_path :
  Py.stdout (Maya.run_script (Maya.sim Maya.three_shapes)
               ["maya_export.py"; "in.mb"] []) = [] /\
  Py.exit (Maya.run_script (Maya.sim Maya.three_shapes)
             ["maya_export.py"; "in.mb"] []) = Py.Uncaught Py.index_error.
Proof. split; reflexivity. Qed.

(** Why C5 needs the tear-down to return: when [uninitialize] raises
    after a successful export, every exception derives from [Exception],
    the success record is on standard output, and the process ends on
    the uncaught exception. *)
Example success_record_with_failing_exit :
  Forall (fun ce => Py.isinstance_Exception (snd ce) = true)
    (Py.raised (Py.trace (Maya.run_script Maya.uninitialize_fails
                            Maya.maya_argv []))) /\
  (exists l,
     Py.stdout (Maya.run_script Maya.uninitialize_fails Maya.maya_argv [])
       = [l] /\ is_success_line l) /\
  Py.exit (Maya.run_script Maya.uninitialize_fails Maya.maya_argv [])
    = Py.Uncaught (Py.Exc "RuntimeError" "Error: shutdown failed") /\
  ~ one_status_line (Maya.run_script Maya.uninitialize_fails
                       Maya.maya_argv []).
Proof.
  split; [vm_compute; repeat constructor|].
  split.
  { eexists. split; [vm_compute; reflexivity|].
    exists 3, "out.obj", 4096%Z. reflexivity. }
  split; [reflexivity|].
  intros (l & _ & [[H _]|[H _]]); vm_compute in H; discriminate H.
Qed.

Lemma status_line_protocol_witness :
  ((List.length Blender.blender_argv < 4 \/
    Py.trace (Blender.run_script (Blender.sim Blender.cube_file)
                Blender.blender_argv []) <> []) /\
   one_status_line (Blender.run_script (Blender.sim Blender.cube_file)
                      Blender.blender_argv [])) /\
  (2 < List.length Maya.maya_argv /\
   one_status_line (Maya.run_script (Maya.sim Maya.no_shapes)
                      Maya.maya_argv [])).
Proof.
  split.
  - split; [right; discriminate|].
    apply (proj1 status_line_protocol _ (Blender.sim Blender.cube_file)
             Blender.blender_argv []);
      [right; discriminate | intros [] | constructor].
  - split; [cbn; lia|].
    apply (proj2 status_line_protocol _ (Maya.sim Maya.no_shapes)
             Maya.maya_argv []);
      [cbn; lia | intros [] | intros [] | constructor].
Defined.

Lemma glb_fallback_witness :
  Blender.opened
    (Py.trace (Blender.run_export (Blender.sim Blender.main_only_file)
                 "in.blend" "out.glb" [])) = ["in.blend"] /\
  (exists objs0 objs z,
     Blender.scene_answers
       (Py.trace (Blender.run_export (Blender.sim Blender.main_only_file)
                    "in.blend" "out.glb" [])) = [objs0; objs] /\
     Py.stdout (Blender.run_export (Blender.sim Blender.main_only_file)
                  "in.blend" "out.glb" [])
       = [success_line (Blender.count_mesh objs) "out.glb" z]) /\
  (exists a objects s1 links a1 objs0 res rest,
     Py.trace (Blender.run_export (Blender.sim Blender.main_only_file)
                 "in.blend" "out.glb" []) =
       (Py.Ev (Blender.ReadFactorySettings true) (Py.Ret a) ::
        Py.Ev (Blender.LibrariesLoad "in.blend" false) (Py.Ret objects) ::
        Py.Ev Blender.ContextScene (Py.Ret s1) ::
        links ++
        Py.Ev (Blender.SelectAll "DESELECT") (Py.Ret a1) ::
        Py.Ev (Blender.SceneObjects s1) (Py.Ret objs0) ::
        Py.Ev (Blender.OpenMainfile "in.blend") res :: rest)%list /\
     map (@Py.ev_call _ _) links =
       map (Blender.CollectionLink s1) (Blender.loaded objects) /\
     Py.raised links = [] /\
     Blender.count_mesh objs0 = 0 /\
     match res with
     | Py.Raise _ => rest = []
     | Py.Ret _ =>
         exists res1 rest1,
           rest = Py.Ev Blender.ContextScene res1 :: rest1 /\
           match res1 with
           | Py.Raise _ => rest1 = []
           | Py.Ret s2 =>
               exists res2 rest2,
                 rest1 = Py.Ev (Blender.SceneObjects s2) res2 :: rest2 /\
                 match res2 with
                 | Py.Raise _ => rest2 = []
                 | Py.Ret objs =>
                     Py.exit (Blender.run_export
                                (Blender.sim Blender.main_only_file)
                                "in.blend" "out.glb" []) = Py.Finished ->
                     exists z,
                       Py.stdout (Blender.run_export
                                    (Blender.sim Blender.main_only_file)
                                    "in.blend" "out.glb" [])
                       = [success_line (Blender.count_mesh objs)
                            "out.glb" z]
                 end
           end
     end).
Proof.
  split; [reflexivity|].
  destruct (glb_fallback (Blender.sim Blender.main_only_file)
              "in.blend" "out.glb" []) as (_ & _ & H3 & H4 & _).
  split; [exact (H3 eq_refl eq_refl) | exact (H4 eq_refl)].
Defined.

Lemma obj_success_report_witness :
  succeeded (Maya.run_export (Maya.sim Maya.three_shapes)
               "in.mb" "out.obj" []) /\
  exists meshes z,
    Maya.ls_answers
      (Py.trace (Maya.run_export (Maya.sim Maya.three_shapes)
                   "in.mb" "out.obj" [])) = [meshes] /\
    meshes <> [] /\
    Maya.reported_size "out.obj"
      (Py.answers Maya.exists_answer
         (Py.trace (Maya.run_export (Maya.sim Maya.three_shapes)
                      "in.mb" "out.obj" [])))
      (Py.answers Maya.getsize_answer
         (Py.trace (Maya.run_export (Maya.sim Maya.three_shapes)
                      "in.mb" "out.obj" [])))
      z /\
    Py.stdout (Maya.run_export (Maya.sim Maya.three_shapes)
                 "in.mb" "out.obj" []) =
      [success_line (List.length meshes) "out.obj" z] /\
    exists pre x rest,
      Py.trace (Maya.run_export (Maya.sim Maya.three_shapes)
                  "in.mb" "out.obj" []) =
        (pre ++
         Py.Ev (Maya.FileExport "out.obj" true "OBJexport" true
                  Maya.obj_options) (Py.Ret x)
         :: rest)%list /\
      Py.answers Maya.exists_answer pre = [] /\
      Py.answers Maya.getsize_answer pre = [].
Proof.
  split; [left; reflexivity|].
  apply (obj_success_report (Maya.sim Maya.three_shapes)
           "in.mb" "out.obj" []).
  left; reflexivity.
Defined.

Lemma obj_missing_args_witness :
  List.length ["maya_export.py"] < 3 /\
  Py.stdout (Maya.run_script (Maya.sim Maya.three_shapes)
               ["maya_export.py"] []) = [] /\
  Py.count_calls Maya.is_uninitialize
    (Py.trace (Maya.run_script (Maya.sim Maya.three_shapes)
                 ["maya_export.py"] [])) = 0 /\
  exists res,
    Py.trace (Maya.run_script (Maya.sim Maya.three_shapes)
                ["maya_export.py"] []) =
      [Py.Ev Maya.StandaloneInitialize res] /\
    forall a, res = Py.Ret a ->
              Py.exit (Maya.run_script (Maya.sim Maya.three_shapes)
                         ["maya_export.py"] [])
              = Py.Uncaught Py.index_error.
Proof.
  split; [cbn; lia|].
  apply (proj2 (obj_missing_args (Maya.sim Maya.three_shapes)
                  ["maya_export.py"] [])).
  cbn; lia.
Defined.

Lemma obj_mesh_count_ignores_parents_witness :
  succeeded (Maya.run_export (Maya.sim Maya.three_shapes)
               "in.mb" "out.obj" []) /\
  exists meshes parents z,
    Maya.ls_answers
      (Py.trace (Maya.run_export (Maya.sim Maya.three_shapes)
                   "in.mb" "out.obj" [])) = [meshes] /\
    Maya.relatives_answers
      (Py.trace (Maya.run_export (Maya.sim Maya.three_shapes)
                   "in.mb" "out.obj" [])) = parents /\
    List.length parents = List.length meshes /\
    Maya.selected
      (Py.trace (Maya.run_export (Maya.sim Maya.three_shapes)
                   "in.mb" "out.obj" [])) =
      (if Maya.truthy (Maya.transforms_of parents)
       then [Maya.transforms_of parents] else []) /\
    Py.stdout (Maya.run_export (Maya.sim Maya.three_shapes)
                 "in.mb" "out.obj" []) =
      [success_line (List.length meshes) "out.obj" z].
Proof.
  split; [left; reflexivity|].
  apply (obj_mesh_count_ignores_parents (Maya.sim Maya.three_shapes)
           "in.mb" "out.obj" []).
  left; reflexivity.
Defined.

Lemma obj_orphan_shapes_exported_witness :
  Maya.ls_answers
    (Py.trace (Maya.run_export (Maya.sim Maya.orphan_shapes)
                 "in.mb" "out.obj" [])) = [["shapeA"; "shapeB"]] /\
  Forall (fun p => Maya.truthy_opt p = false)
    (Maya.relatives_answers
       (Py.trace (Maya.run_export (Maya.sim Maya.orphan_shapes)
                    "in.mb" "out.obj" []))) /\
  Maya.selected
    (Py.trace (Maya.run_export (Maya.sim Maya.orphan_shapes)
                 "in.mb" "out.obj" [])) = [] /\
  exists a queries r rest,
    Py.trace (Maya.run_export (Maya.sim Maya.orphan_shapes)
                "in.mb" "out.obj" []) =
      Py.Ev (Maya.FileOpen "in.mb" true) (Py.Ret a) ::
      Py.Ev (Maya.Ls "mesh") (Py.Ret ["shapeA"; "shapeB"]) ::
      (queries ++
       Py.Ev (Maya.FileExport "out.obj" true "OBJexport" true
                Maya.obj_options) r ::
       rest)%list /\
    map (@Py.ev_call _ _) queries =
      map (fun m => Maya.ListRelatives m true) ["shapeA"; "shapeB"].
Proof.
  split; [vm_compute; reflexivity|].
  split; [vm_compute; repeat constructor|].
  apply (obj_orphan_shapes_exported (Maya.sim Maya.orphan_shapes)
           "in.mb" "out.obj" [] ["shapeA"; "shapeB"]);
    [ vm_compute; reflexivity | discriminate | vm_compute; reflexivity
    | vm_compute; repeat constructor ].
Defined.

(** * Further properties of the two exporters

    What the scripts do beyond the claims above: the exact domain of the
    usage guard, the calls of each loop, where the export call sits in a
    trace, and what the exit status and the output lines can be. *)

(** ** Traces in general *)

Module TraceFacts.

Import Py.

Section Traces.

Context {call : Type} {ret_ty : call -> Type}.

Lemma calls_where_app (p : call -> bool)
  (t1 t2 : list (Py.event call ret_ty)) :
  calls_where p (t1 ++ t2) = (calls_where p t1 ++ calls_where p t2)%list.
Proof. unfold calls_where. now rewrite map_app, filter_app. Qed.

Lemma calls_where_count (p : call -> bool)
  (t : list (Py.event call ret_ty)) :
  count_calls p t = 0 -> calls_where p t = [].
Proof.
  unfold count_calls, calls_where. induction t as [|ev t IH]; [reflexivity|].
  cbn. destruct (p (ev_call ev)); [discriminate|exact IH].
Qed.

(** A call that raised is counted among the calls of its kind. *)
Lemma raised_count (p : call -> bool) (t : list (Py.event call ret_ty))
  c e :
  In (c, e) (raised t) -> p c = true -> 0 < count_calls p t.
Proof.
  induction t as [|[k r] t IH]; [intros []|].
  intros Hin Hp. rewrite PyFacts.count_calls_cons. cbn [ev_call].
  destruct r as [a|e'].
  - rewrite PyFacts.raised_cons_ret in Hin. specialize (IH Hin Hp).
    destruct (p k); lia.
  - cbn in Hin. destruct Hin as [[= <- <-]|Hin].
    + rewrite Hp. lia.
    + specialize (IH Hin Hp). destruct (p k); lia.
Qed.

End Traces.

Lemma last_listing {A : Type} (l : list A) (x y : A) :
  (exists earlier, (l ++ [x] = earlier ++ [y])%list) -> x = y.
Proof.
  intros (earlier & H). now apply app_inj_tail in H.
Qed.

Lemma app_two {A : Type} (l : list A) a b :
  ((l ++ [a]) ++ [b] = l ++ a :: [b])%list.
Proof. now rewrite <- app_assoc. Qed.

Lemma app_three {A : Type} (l : list A) a b c :
  (((l ++ [a]) ++ [b]) ++ [c] = l ++ a :: b :: [c])%list.
Proof. now rewrite <- !app_assoc. Qed.

End TraceFacts.

(** ** The status lines *)

Module JsonFacts.

Lemma one_line_app s t : one_line (s ++ t) = one_line s && one_line t.
Proof.
  induction s as [|c s IH]; [reflexivity|].
  cbn. now rewrite IH, andb_assoc.
Qed.

Lemma escape_char_one_line c : one_line (Json.escape_char c) = true.
Proof. destruct c as [[] [] [] [] [] [] [] []]; reflexivity. Qed.

Lemma escape_one_line s : one_line (Json.escape s) = true.
Proof.
  induction s as [|c s IH]; [reflexivity|].
  cbn [Json.escape]. now rewrite one_line_app, escape_char_one_line, IH.
Qed.

Lemma dumps_str_one_line s : one_line (Json.dumps_str s) = true.
Proof.
  unfold Json.dumps_str. now rewrite !one_line_app, escape_one_line.
Qed.

Lemma string_of_uint_one_line d :
  one_line (NilEmpty.string_of_uint d) = true.
Proof. induction d; cbn [NilEmpty.string_of_uint one_line]; auto. Qed.

Lemma dumps_int_one_line z : one_line (Json.dumps_int z) = true.
Proof.
  unfold Json.dumps_int, NilZero.string_of_int, NilZero.string_of_uint.
  destruct (Z.to_int z) as [d|d]; destruct d; try reflexivity;
    cbn [one_line]; rewrite ?string_of_uint_one_line; reflexivity.
Qed.

Lemma dumps_value_one_line v : one_line (Json.dumps_value v) = true.
Proof.
  destruct v as [[]|z|s]; cbn [Json.dumps_value];
    auto using dumps_int_one_line, dumps_str_one_line.
Qed.

Lemma dumps_items_one_line d : one_line (Json.dumps_items d) = true.
Proof.
  induction d as [|[k v] l IH]; [reflexivity|].
  cbn [Json.dumps_items].
  rewrite !one_line_app, dumps_str_one_line, dumps_value_one_line.
  destruct l; [reflexivity|]. now rewrite one_line_app, IH.
Qed.

Lemma dumps_one_line d : one_line (Json.dumps d) = true.
Proof.
  unfold Json.dumps. now rewrite !one_line_app, dumps_items_one_line.
Qed.

Lemma error_line_one_line msg : one_line (error_line msg) = true.
Proof. apply dumps_one_line. Qed.

Lemma success_line_one_line n p z : one_line (success_line n p z) = true.
Proof. unfold success_line. now rewrite one_line_app, dumps_one_line. Qed.

End JsonFacts.

(** ** The GLB exporter *)

Section GlbMore.

Import Py Blender BlenderFacts.

Context {W : Type} (host : host_t W).

(** *** The command line *)

(** X1: the usage guard fires exactly on command lines of fewer than
    four words: such a run makes no host call, prints the usage error
    record and exits with code 1, and no run on a longer command line
    looks like that. *)
Theorem glb_usage_guard_exact (argv : list string) (w : W) :
  (trace (run_script host argv w) = [] /\
   stdout (run_script host argv w) = [error_line usage_msg] <->
   List.length argv < 4) /\
  (trace (run_script host argv w) = [] /\
   stdout (run_script host argv w) = [error_line usage_msg] ->
   exit (run_script host argv w) = Exited 1).
Proof.
  destruct (Nat.lt_ge_cases (List.length argv) 4) as [Hlt|Hge].
  - rewrite (usage_guard host argv w Hlt). cbn. tauto.
  - assert (H : trace (run_script host argv w) = [] ->
                stdout (run_script host argv w) = []).
    { unfold run_script, exec, main. cbn [trace stdout].
      rewrite <- (PyFacts.after_nil (bind _ _ w)).
      rewrite PyFacts.bind_if.
      destruct (Nat.ltb_spec (List.length argv) 4) as [H'|_]; [lia|].
      repeat step_pure.
      destruct (list_index "--" argv) as [i|e]; [|reflexivity].
      repeat step_pure.
      destruct (getitem _ 0) as [a|e]; [|reflexivity].
      repeat step_pure.
      destruct (getitem _ 1) as [b|e]; [|reflexivity].
      rewrite PyFacts.after_nil.
      pose proof (export_to_glb_run host a b w) as R.
      cbn zeta in R.
      destruct (host (ReadFactorySettings true) w) as [[x|e] w'].
      - destruct R as [-> _]. discriminate.
      - rewrite R. discriminate. }
    split.
    + split; [|lia]. intros [Ht Hs]. rewrite (H Ht) in Hs. discriminate.
    + intros [Ht Hs]. rewrite (H Ht) in Hs. discriminate.
Qed.

(** X2: on a command line of at least four words the script is one call
    of [export_to_glb] on the first two words after the first ["--"];
    anything after them is ignored. *)
Theorem glb_main_arguments (argv : list string) (w : W)
  (input_path output_path : string) (rest : list string) :
  4 <= List.length argv ->
  script_args argv = input_path :: output_path :: rest ->
  run_script host argv w = run_export host input_path output_path w.
Proof.
  intros H4 Hargs. unfold run_script, run_export, exec.
  enough (H : main host argv w =
              export_to_glb host input_path output_path w)
    by now rewrite H.
  unfold main.
  rewrite <- (PyFacts.after_nil (bind _ _ w)).
  rewrite PyFacts.bind_if.
  destruct (Nat.ltb_spec (List.length argv) 4) as [H'|_]; [lia|].
  repeat step_pure.
  pose proof (find_index_script_args argv) as F.
  unfold list_index.
  destruct (find_index "--" argv) as [i|];
    [|rewrite Hargs in F; discriminate].
  rewrite F, Hargs. repeat step_pure. cbn [getitem nth_error].
  repeat step_pure. apply PyFacts.after_nil.
Qed.

(** *** The scene reset *)

(** X3: the factory reset is the first host call of [export_to_glb],
    whatever the arguments; when it raises, it is the only call, nothing
    is printed and the exception leaves the function as it is. *)
Theorem glb_reset_first (input_path output_path : string) (w : W) :
  exists res rest,
    trace (run_export host input_path output_path w)
      = Ev (ReadFactorySettings true) res :: rest /\
    forall e, res = Raise e ->
      rest = [] /\
      stdout (run_export host input_path output_path w) = [] /\
      exit (run_export host input_path output_path w)
        = toplevel (Raise e : Py.res unit).
Proof.
  unfold run_export, exec. cbn [trace stdout exit].
  pose proof (export_to_glb_run host input_path output_path w) as R.
  cbn zeta in R.
  destruct (host (ReadFactorySettings true) w) as [[a|e] w'].
  - destruct R as [-> _]. do 2 eexists. split; [reflexivity|]. discriminate.
  - rewrite R. cbn. do 2 eexists. split; [reflexivity|].
    intros e' [= <-]. auto.
Qed.

(** *** The two loops *)

Lemma select_meshes_step o l n w :
  select_meshes host (o :: l) n w =
  if is_mesh o then
    match fst (host (SelectSet o true) w) with
    | Ret a =>
        after [Ev (SelectSet o true) (Ret a)] []
              (select_meshes host l (S n) (snd (host (SelectSet o true) w)))
    | Raise e =>
        Out (Raise e) (snd (host (SelectSet o true) w))
            [Ev (SelectSet o true) (Raise e)] []
    end
  else select_meshes host l n w.
Proof.
  rewrite select_meshes_cons. unfold is_mesh.
  rewrite <- (PyFacts.after_nil (bind _ _ w)). rewrite PyFacts.bind_if.
  destruct (String.eqb (ob_type o) "MESH").
  - rewrite PyFacts.bind_assoc, PyFacts.after_bind_hcall.
    destruct (fst (host (SelectSet o true) w)) as [a|e]; [|reflexivity].
    rewrite PyFacts.after_bind_ret. reflexivity.
  - rewrite PyFacts.after_bind_ret. apply PyFacts.after_nil.
Qed.

(** X4: the linking loop of lines 20-22 links the loaded objects that are
    not [None], in order, and nothing else; it stops at the first link
    that raises, which is then the only call that raised. *)
Theorem link_objects_calls (scene : Scene) (objects : list (option Obj)) :
  forall (w : W),
  match result (link_objects host scene objects w) with
  | Ret _ =>
      map (@ev_call _ _) (events (link_objects host scene objects w)) =
        map (CollectionLink scene) (loaded objects) /\
      raised (events (link_objects host scene objects w)) = []
  | Raise e =>
      exists k o,
        nth_error (loaded objects) k = Some o /\
        map (@ev_call _ _) (events (link_objects host scene objects w)) =
          map (CollectionLink scene) (firstn (S k) (loaded objects)) /\
        raised (events (link_objects host scene objects w)) =
          [(CollectionLink scene o, e)]
  end.
Proof.
  induction objects as [|x l IH]; intros w.
  - cbn. auto.
  - rewrite link_objects_step. destruct x as [o|]; [|exact (IH w)].
    unfold loaded. cbn [flat_map app]. fold (loaded l).
    destruct (host (CollectionLink scene o) w) as [[a|e] w']; cbn [fst snd].
    + specialize (IH w'). unfold after. cbn [result events app map].
      rewrite PyFacts.raised_cons_ret.
      destruct (result (link_objects host scene l w')) as [u|e].
      * destruct IH as (-> & ->). auto.
      * destruct IH as (k & o' & Hk & -> & ->).
        exists (S k), o'. repeat split. exact Hk.
    + cbn. exists 0, o. repeat split.
Qed.

(** X5: the selection loop of lines 27-30 (and 35-38) calls
    [select_set(True)] on the mesh-typed objects of the listing, in
    order, and on no other object, and adds their number to the counter;
    it stops at the first selection that raises. *)
Theorem select_meshes_calls (objects : list Obj) : forall (n : nat) (w : W),
  match result (select_meshes host objects n w) with
  | Ret m =>
      map (@ev_call _ _) (events (select_meshes host objects n w)) =
        map (fun o => SelectSet o true) (filter is_mesh objects) /\
      raised (events (select_meshes host objects n w)) = [] /\
      m = n + count_mesh objects
  | Raise e =>
      exists k o,
        nth_error (filter is_mesh objects) k = Some o /\
        map (@ev_call _ _) (events (select_meshes host objects n w)) =
          map (fun o => SelectSet o true)
              (firstn (S k) (filter is_mesh objects)) /\
        raised (events (select_meshes host objects n w)) =
          [(SelectSet o true, e)]
  end.
Proof.
  induction objects as [|o l IH]; intros n w.
  - cbn. repeat split. unfold count_mesh. cbn. lia.
  - rewrite select_meshes_step. unfold count_mesh. cbn [filter].
    destruct (is_mesh o) eqn:Hm.
    + destruct (host (SelectSet o true) w) as [[a|e] w']; cbn [fst snd].
      * specialize (IH (S n) w'). unfold after.
        cbn [result events app map].
        rewrite PyFacts.raised_cons_ret.
        destruct (result (select_meshes host l (S n) w')) as [m|e].
        -- destruct IH as (-> & -> & ->). repeat split.
           unfold count_mesh. cbn [List.length]. lia.
        -- destruct IH as (k & o' & Hk & -> & ->).
           exists (S k), o'. repeat split. exact Hk.
      * cbn. exists 0, o. repeat split.
    + specialize (IH n w).
      destruct (result (select_meshes host l n w)) as [m|e]; exact IH.
Qed.

(** *** The exit status *)

(** X6: a call of [export_to_glb] ends normally exactly when no host
    call raised and the last scene listing held a mesh-typed object. *)
Theorem glb_exit_zero_iff (input_path output_path : string) (w : W) :
  exit (run_export host input_path output_path w) = Finished <->
  raised (trace (run_export host input_path output_path w)) = [] /\
  exists earlier objs,
    scene_answers (trace (run_export host input_path output_path w))
      = (earlier ++ [objs])%list /\
    0 < count_mesh objs.
Proof.
  unfold run_export, exec. cbn [trace stdout exit].
  pose proof (export_to_glb_run host input_path output_path w) as R.
  cbn zeta in R.
  destruct (host (ReadFactorySettings true) w) as [[a|e] w'].
  2:{ rewrite R. cbn. split.
      - intros H. destruct e; discriminate.
      - intros [H _]. discriminate. }
  destruct R as [Hev Hr]. rewrite Hev.
  rewrite scene_answers_cons_reset, PyFacts.raised_cons_ret.
  destruct (glb_try_body_cases host input_path output_path w')
    as [n z objs Hres Hsc Hpr Hra Hn Hc Hsz Hex
       |objs0 objs Hres Hsc Hpr Hra H0 H1 Hop Hex Hsz
       |c e Hres Hpr Hra Hsc];
    rewrite Hres in Hr; cbn [isinstance_Exception] in Hr.
  - destruct Hr as [-> _]. split; [intros _|reflexivity].
    split; [exact Hra|].
    destruct Hsc as [[-> _]|(objs0 & -> & _)].
    + exists [], objs. split; [reflexivity|lia].
    + exists [objs0], objs. split; [reflexivity|lia].
  - destruct Hr as [-> _]. split; [discriminate|].
    intros (_ & earlier & objs' & Hl & Hpos). exfalso.
    rewrite Hsc in Hl.
    assert (objs = objs').
    { apply (TraceFacts.last_listing [objs0]). now exists earlier. }
    subst. lia.
  - rewrite Hra. split.
    + intros H. exfalso.
      destruct (isinstance_Exception e); destruct Hr as [Hr _];
        rewrite Hr in H; [discriminate|now apply PyFacts.toplevel_raise in H].
    + intros [H _]. discriminate.
Qed.

(** X7: a call of [export_to_glb] that ends normally made exactly one
    export call and printed exactly one line, the success record, with
    the number of mesh-typed objects of the last scene listing, the
    output path as given, and the size [os.path.getsize] answered. *)
Theorem glb_success_record (input_path output_path : string) (w : W) :
  exit (run_export host input_path output_path w) = Finished ->
  exists earlier objs z,
    scene_answers (trace (run_export host input_path output_path w))
      = (earlier ++ [objs])%list /\
    answers getsize_answer
      (trace (run_export host input_path output_path w)) = [z] /\
    count_calls is_export
      (trace (run_export host input_path output_path w)) = 1 /\
    stdout (run_export host input_path output_path w)
      = [success_line (count_mesh objs) output_path z].
Proof.
  unfold run_export, exec. cbn [trace stdout exit].
  pose proof (export_to_glb_run host input_path output_path w) as R.
  cbn zeta in R.
  destruct (host (ReadFactorySettings true) w) as [[a|e] w'].
  2:{ rewrite R. cbn. intros H. destruct e; discriminate. }
  destruct R as [Hev Hr]. rewrite Hev.
  rewrite scene_answers_cons_reset.
  destruct (glb_try_body_cases host input_path output_path w')
    as [n z objs Hres Hsc Hpr Hra Hn Hc Hsz Hex
       |objs0 objs Hres Hsc Hpr Hra H0 H1 Hop Hex Hsz
       |c e Hres Hpr Hra Hsc];
    rewrite Hres in Hr; cbn [isinstance_Exception] in Hr.
  - destruct Hr as [_ ->]. intros _.
    assert (Hs : exists earlier,
               scene_answers
                 (events (try_body host input_path output_path w'))
               = (earlier ++ [objs])%list).
    { destruct Hsc as [[-> _]|(objs0 & -> & _)];
        [now exists [] | now exists [objs0]]. }
    destruct Hs as (earlier & Hs).
    exists earlier, objs, z. rewrite Hs, Hpr, Hc.
    repeat split; auto.
  - destruct Hr as [-> _]. discriminate.
  - intros H. exfalso.
    destruct (isinstance_Exception e); destruct Hr as [Hr _];
      rewrite Hr in H; [discriminate|now apply PyFacts.toplevel_raise in H].
Qed.

(** *** The export call *)

Ltac pre_obs :=
  repeat match goal with
         | H : loop_trace _ |- _ => destruct H
         | H : (_ =? _)%nat = true |- _ => apply Nat.eqb_eq in H
         | H : (_ =? _)%nat = false |- _ => apply Nat.eqb_neq in H
         | H : count_calls is_export _ = 0 |- _ =>
             apply TraceFacts.calls_where_count in H
         end;
  unfold scene_answers in *;
  rewrite ?PyFacts.raised_app, ?PyFacts.answers_app,
    ?TraceFacts.calls_where_app;
  repeat match goal with
         | H : raised _ = _ |- _ => rewrite H
         | H : answers _ _ = _ |- _ => rewrite H
         | H : calls_where _ _ = _ |- _ => rewrite H
         end;
  cbn [raised answers calls_where flat_map filter map app
       ev_call ev_res scene_answer is_export].

(** The body of the [try] either never reaches the export, or its trace
    ends with [transform_apply], the export and at most the size
    query. *)
Lemma glb_try_body_export_shape input_path output_path w :
  (calls_where is_export
     (events (try_body host input_path output_path w)) = [] /\
   count_calls is_getsize
     (events (try_body host input_path output_path w)) = 0) \/
  exists pre a r post,
    events (try_body host input_path output_path w) =
      (pre ++ Ev (TransformApply true true true) (Ret a)
           :: Ev (ExportGltf (gltf_options output_path)) r :: post)%list /\
    raised pre = [] /\
    calls_where is_export pre = [] /\
    (exists earlier objs,
        scene_answers pre = (earlier ++ [objs])%list /\
        0 < count_mesh objs) /\
    match r with
    | Raise _ => post = []
    | Ret _ => exists res, post = [Ev (OsPathGetsize output_path) res]
    end.
Proof.
  pattern (try_body host input_path output_path w).
  match goal with |- ?P _ => set (Q := P) end.
  rewrite <- (PyFacts.after_nil (try_body host input_path output_path w)).
  unfold try_body.
  repeat step host.
  all: subst Q; cbv beta; cbn [events].
  all: try (left; split; [pre_obs; reflexivity | obs; reflexivity]).
  all: right.
  all: rewrite ?TraceFacts.app_three; rewrite ?TraceFacts.app_two.
  all: do 4 eexists; split; [reflexivity|].
  all: pre_obs.
  all: repeat split.
  all: try match goal with
           | |- exists earlier objs, [?a; ?b] = _ /\ _ =>
               exists [a], b; split; [reflexivity|lia]
           | |- exists earlier objs, [?a] = _ /\ _ =>
               exists [], a; split; [reflexivity|lia]
           | |- exists res, _ => eexists; reflexivity
           end.
Qed.

(** X8: [export_to_glb] calls the glTF exporter at most once, with the
    output path and the fixed GLB options.  When it does, every earlier
    call returned, the last scene listing held a mesh-typed object,
    [transform_apply] is the call just before, and the only call after a
    returned export is [os.path.getsize] on the output path; a run
    without the export call never queries a file size. *)
Theorem glb_export_guarded (input_path output_path : string) (w : W) :
  let t := trace (run_export host input_path output_path w) in
  calls_where is_export t = [] /\ count_calls is_getsize t = 0 \/
  exists pre a r post,
    t = (pre ++ Ev (TransformApply true true true) (Ret a)
             :: Ev (ExportGltf (gltf_options output_path)) r :: post)%list /\
    raised pre = [] /\
    calls_where is_export pre = [] /\
    (exists earlier objs,
        scene_answers pre = (earlier ++ [objs])%list /\
        0 < count_mesh objs) /\
    match r with
    | Raise _ => post = []
    | Ret _ => exists res, post = [Ev (OsPathGetsize output_path) res]
    end.
Proof.
  cbv zeta. unfold run_export, exec. cbn [trace].
  pose proof (export_to_glb_run host input_path output_path w) as R.
  cbn zeta in R.
  destruct (host (ReadFactorySettings true) w) as [[a0|e0] w'].
  2:{ rewrite R. left. split; reflexivity. }
  destruct R as [-> _].
  destruct (glb_try_body_export_shape input_path output_path w')
    as [[H1 H2]|(pre & a & r & post & -> & Hr & Hx & Hs & Hp)].
  - left. split; [exact H1 | exact H2].
  - right. exists (Ev (ReadFactorySettings true) (Ret a0) :: pre), a, r, post.
    repeat split; auto.
Qed.

(** X9: when [os.path.getsize] raises an exception derived from
    [Exception], the export call had already returned: the GLB file was
    written, and yet the only line printed is the error record with the
    message of that exception and the exit code is 1. *)
Theorem glb_size_failure_after_export (input_path output_path : string)
  (w : W) (c : call) (e : py_exc) :
  let r := run_export host input_path output_path w in
  In (c, e) (raised (trace r)) -> is_getsize c = true ->
  isinstance_Exception e = true ->
  (exists pre a,
     trace r = (pre ++ [Ev (ExportGltf (gltf_options output_path)) (Ret a);
                        Ev (OsPathGetsize output_path) (Raise e)])%list /\
     raised pre = []) /\
  stdout r = [error_line (str e)] /\ exit r = Exited 1.
Proof.
  cbv zeta. unfold run_export, exec. cbn [trace stdout exit].
  pose proof (export_to_glb_run host input_path output_path w) as R.
  cbn zeta in R.
  destruct (host (ReadFactorySettings true) w) as [[a0|e0] w'].
  2:{ rewrite R. cbn. intros [[= <- <-]|[]]. discriminate. }
  destruct R as [Hev Hr]. rewrite Hev. rewrite PyFacts.raised_cons_ret.
  intros Hin Hc He.
  destruct (glb_try_body_export_shape input_path output_path w')
    as [[_ H0]|(pre & a & r & post & Ht & Hra & _ & _ & Hp)].
  { apply (TraceFacts.raised_count is_getsize) in Hin; [lia|exact Hc]. }
  pose proof Hin as Hin'.
  rewrite Ht in Hin |- *. clear Ht.
  rewrite PyFacts.raised_app, Hra in Hin. cbn [app] in Hin.
  rewrite PyFacts.raised_cons_ret in Hin.
  destruct r as [x|e']; [destruct Hp as [res ->]|subst post].
  2:{ cbn in Hin. destruct Hin as [[= <- <-]|[]]. discriminate. }
  destruct res as [z|b]; [destruct Hin|].
  cbn in Hin. destruct Hin as [[= <- <-]|[]].
  split.
  { exists (Ev (ReadFactorySettings true) (Ret a0)
              :: pre ++ [Ev (TransformApply true true true) (Ret a)])%list, x.
    cbn [app]. rewrite <- app_assoc. split; [reflexivity|].
    rewrite PyFacts.raised_cons_ret, PyFacts.raised_app, Hra. reflexivity. }
  destruct (glb_try_body_cases host input_path output_path w')
    as [n z objs Hres Hsc Hpr Hra' Hn Hcn Hsz Hex
       |objs0 objs Hres Hsc Hpr Hra' H0 H1 Hop Hex Hsz
       |c' e' Hres Hpr Hra' Hsc];
    rewrite Hra' in Hin'; try destruct Hin'.
  2: contradiction.
  injection H as _ ->. rewrite Hres, He in Hr.
  destruct Hr as [-> ->]. now rewrite Hpr.
Qed.

(** *** The output lines *)

Lemma glb_main_printed argv w :
  (exists input_path output_path,
      main host argv w = export_to_glb host input_path output_path w) \/
  printed (main host argv w) = [] \/
  printed (main host argv w) = [error_line usage_msg].
Proof.
  unfold main. rewrite <- (PyFacts.after_nil (bind _ _ w)).
  repeat step_pure; try (right; right; reflexivity).
  destruct (list_index "--" argv) as [i|e]; [|right; left; reflexivity].
  repeat step_pure.
  destruct (getitem _ 0) as [a|e]; [|right; left; reflexivity].
  repeat step_pure.
  destruct (getitem _ 1) as [b|e]; [|right; left; reflexivity].
  left. exists a, b. apply PyFacts.after_nil.
Qed.

(** X10: every line the GLB exporter writes to standard output is made
    of printable ASCII characters only, for every exception message and
    output path whose characters have codes below 256 (the strings of
    this development): a line feed, a carriage return, any other control
    character, a quote, a backslash or a code above 126 in them is
    escaped, and never splits a status line.  Code points from 256 on
    are not covered. *)
Theorem glb_stdout_printable (argv : list string) (w : W) :
  Forall (fun l => one_line l = true) (stdout (run_script host argv w)).
Proof.
  unfold run_script, exec. cbn [stdout].
  destruct (glb_main_printed argv w) as [(i & o & ->)|[->| ->]];
    [|constructor|repeat constructor; apply JsonFacts.error_line_one_line].
  pose proof (export_to_glb_run host i o w) as R.
  cbn zeta in R.
  destruct (host (ReadFactorySettings true) w) as [[a|e0] w'].
  2:{ rewrite R. constructor. }
  destruct R as [_ Hr].
  destruct (glb_try_body_cases host i o w')
    as [n z objs Hres Hsc Hpr Hra Hn Hc Hsz Hex
       |objs0 objs Hres Hsc Hpr Hra H0 H1 Hop Hex Hsz
       |c' e' Hres Hpr Hra Hsc];
    rewrite Hres in Hr; cbn [isinstance_Exception] in Hr;
    try destruct (isinstance_Exception e');
    destruct Hr as [_ ->]; rewrite Hpr; cbn [app];
    repeat constructor;
    auto using JsonFacts.error_line_one_line,
               JsonFacts.success_line_one_line.
Qed.

End GlbMore.

(** ** The OBJ exporter *)

Section ObjMore.

Import Py Maya MayaFacts.

Context {W : Type} (host : host_t W).

(** *** The loop over the mesh shapes *)

Lemma extend_if_app acc p : extend_if acc p = (acc ++ opt_list p)%list.
Proof. destruct p as [[|x l]|]; cbn; now rewrite ?app_nil_r. Qed.

Lemma transforms_of_concat parents : forall acc,
  fold_left extend_if parents acc = (acc ++ flat_map opt_list parents)%list.
Proof.
  induction parents as [|p l IH]; intros acc; cbn [fold_left flat_map].
  - now rewrite app_nil_r.
  - now rewrite IH, extend_if_app, <- app_assoc.
Qed.

(** X11: the loop of lines 24-28 asks [cmds.listRelatives(mesh,
    parent=True)] once for every mesh shape, in order, and returns the
    concatenation of the answers that are lists, in that order, with
    repeated parents kept ([None] and the empty list add nothing); it
    stops at the first query that raises. *)
Theorem collect_transforms_calls (meshes : list string) (w : W) :
  match result (collect_transforms host meshes w) with
  | Ret transforms =>
      map (@ev_call _ _) (events (collect_transforms host meshes w)) =
        map (fun m => ListRelatives m true) meshes /\
      raised (events (collect_transforms host meshes w)) = [] /\
      transforms =
        flat_map opt_list
          (relatives_answers (events (collect_transforms host meshes w)))
  | Raise e =>
      exists k m,
        nth_error meshes k = Some m /\
        map (@ev_call _ _) (events (collect_transforms host meshes w)) =
          map (fun m => ListRelatives m true) (firstn (S k) meshes) /\
        raised (events (collect_transforms host meshes w)) =
          [(ListRelatives m true, e)]
  end.
Proof.
  rewrite collect_transforms_from.
  enough (H : forall acc w,
             match result (collect_from host meshes acc w) with
             | Ret ts =>
                 map (@ev_call _ _)
                     (events (collect_from host meshes acc w)) =
                   map (fun m => ListRelatives m true) meshes /\
                 raised (events (collect_from host meshes acc w)) = [] /\
                 ts = (acc ++ flat_map opt_list
                         (relatives_answers
                            (events (collect_from host meshes acc w))))%list
             | Raise e =>
                 exists k m,
                   nth_error meshes k = Some m /\
                   map (@ev_call _ _)
                       (events (collect_from host meshes acc w)) =
                     map (fun m => ListRelatives m true)
                         (firstn (S k) meshes) /\
                   raised (events (collect_from host meshes acc w)) =
                     [(ListRelatives m true, e)]
             end) by exact (H [] w).
  clear w. induction meshes as [|m l IH]; intros acc w.
  - cbn. now rewrite app_nil_r.
  - rewrite collect_from_cons.
    destruct (host (ListRelatives m true) w) as [[p|e] w']; cbn [fst snd].
    + specialize (IH (extend_if acc p) w'). unfold after.
      cbn [result events app map]. rewrite PyFacts.raised_cons_ret.
      destruct (result (collect_from host l (extend_if acc p) w')) as [ts|e].
      * destruct IH as (-> & -> & ->). repeat split.
        rewrite extend_if_app, <- app_assoc. reflexivity.
      * destruct IH as (k & m' & Hk & -> & ->).
        exists (S k), m'. repeat split. exact Hk.
    + cbn. exists 0, m. repeat split.
Qed.

(** *** A scene without mesh shapes *)

(** X12: when [cmds.ls(type='mesh')] answers the empty list, the calls
    of [export_to_obj] are the file open, the mesh query and the runtime
    tear-down, nothing else: no parent query, no selection, no export;
    the only line printed is the "no mesh" error record, and the exit
    code is 1 when the tear-down returned. *)
Theorem obj_no_mesh (input_path output_path : string) (w : W) :
  let r := run_export host input_path output_path w in
  ls_answers (trace r) = [[]] ->
  exists a res,
    trace r = [Ev (FileOpen input_path true) (Ret a);
               Ev (Ls "mesh") (Ret []);
               Ev StandaloneUninitialize res] /\
    stdout r = [error_line no_mesh_msg] /\
    (raised (trace r) = [] -> exit r = Exited 1).
Proof.
  cbv zeta. unfold run_export, exec. cbn [exit trace stdout].
  destruct (export_to_obj_run host input_path output_path w)
    as (res & He & Hr & Hp). cbn zeta in *. rewrite He, Hp. clear He Hp.
  unfold ls_answers. rewrite (answers_uninit ls_answer) by reflexivity.
  rewrite PyFacts.raised_app, raised_uninit.
  revert Hr.
  pattern (try_body host input_path output_path w).
  match goal with |- ?P _ => set (Q := P) end.
  rewrite <- (PyFacts.after_nil (try_body host input_path output_path w)).
  unfold try_body.
  repeat step host.
  all: subst Q; cbv beta; obs.
  all: intros Hr Hls; try discriminate Hls.
  all: try (injection Hls as ->;
            match goal with H : truthy [] = true |- _ => discriminate H end).
  exists a, res. cbn [isinstance_Exception] in *.
  repeat split. destruct res as [u|e]; [now rewrite Hr|discriminate].
Qed.

(** *** The export call *)

(** X13: [export_to_obj] calls the OBJ export at most once.  When it
    does, the trace up to it is: the file open, the mesh query with a
    non-empty answer, one parent query per mesh shape in order, all of
    them returned, then [cmds.select] on the concatenated parents when
    there is at least one (and no selection call otherwise), then the
    export of the selection to the output path with the fixed options. *)
Theorem obj_export_guarded (input_path output_path : string) (w : W) :
  let t := trace (run_export host input_path output_path w) in
  calls_where is_export t = [] \/
  exists a meshes queries sel x rest,
    let transforms := flat_map opt_list (relatives_answers queries) in
    t = (Ev (FileOpen input_path true) (Ret a) ::
         Ev (Ls "mesh") (Ret meshes) ::
         queries ++ sel ++
         Ev (FileExport output_path true "OBJexport" true obj_options) x ::
         rest)%list /\
    meshes <> [] /\
    map (@ev_call _ _) queries = map (fun m => ListRelatives m true) meshes /\
    raised queries = [] /\
    sel = (if truthy transforms
           then [Ev (Select transforms) (Ret tt)] else []) /\
    calls_where is_export rest = [].
Proof.
  cbv zeta. unfold run_export, exec. cbn [exit trace stdout].
  destruct (export_to_obj_run host input_path output_path w)
    as (res & He & _ & _). cbn zeta in *. rewrite He. clear He.
  pattern (try_body host input_path output_path w).
  match goal with |- ?P _ => set (Q := P) end.
  rewrite <- (PyFacts.after_nil (try_body host input_path output_path w)).
  unfold try_body.
  repeat step host.
  all: subst Q; cbv beta; cbn [events].
  all: repeat match goal with
         | H : loop_trace _ |- _ => destruct H
         | H : negb (truthy ?x) = true |- _ =>
             destruct x; [clear H | discriminate H]
         | H : negb (truthy ?x) = false |- _ => apply negb_false_iff in H
         | H : count_calls is_export _ = 0 |- _ =>
             apply TraceFacts.calls_where_count in H
         end.
  all: try (left; rewrite ?TraceFacts.calls_where_app;
            repeat match goal with
                   | H : calls_where _ _ = _ |- _ => rewrite H
                   end; reflexivity).
  all: right.
  all: match goal with
       | |- exists _ _ _ _ _ _, ?lhs = _ /\ _ =>
           let t := fresh "t" in
           let Ht := fresh "Ht" in
           remember lhs as t eqn:Ht;
           rewrite <- ?app_assoc in Ht; cbn [app] in Ht; subst t
       end.
  all: match goal with
       | |- exists _ _ _ _ _ _,
             Ev _ (Ret ?a) :: Ev _ (Ret ?ms) ::
             (?q ++ Ev (FileExport _ _ _ _ _) ?x :: ?rest)%list = _ /\ _ =>
           exists a, ms, q, [], x, rest
       | |- exists _ _ _ _ _ _,
             Ev _ (Ret ?a) :: Ev _ (Ret ?ms) ::
             (?q ++ ?s :: Ev (FileExport _ _ _ _ _) ?x :: ?rest)%list = _ /\ _ =>
           exists a, ms, q, [s], x, rest
       end.
  all: cbv zeta; split; [reflexivity|].
  all: split; [intros Hm; rewrite Hm in *; discriminate|].
  all: split;
    [match goal with
     | C : map _ _ = map _ (firstn _ _), L : List.length (events _) = _ |- _ =>
         rewrite C, L, firstn_all; reflexivity
     end|].
  all: split; [assumption|].
  all: split; [|reflexivity].
  all: match goal with
       | H : ?ts = transforms_of _, B : truthy ?ts = _ |- _ =>
           unfold transforms_of in H; rewrite transforms_of_concat in H;
           cbn [app] in H; rewrite <- H, B
       end.
  all: try reflexivity.
  all: match goal with u : ret_ty (Select _) |- _ => destruct u end.
  all: reflexivity.
Qed.

(** *** The exit status *)

(** X14: when [maya.standalone.uninitialize()] raises, its exception is
    what ends the process, whatever the body of the [try] did: the exit
    status is that of the tear-down exception even when nothing else
    failed and the success record (or the "no mesh" error record) is
    already on standard output. *)
Theorem obj_teardown_failure (input_path output_path : string) (w : W)
  (e : py_exc) :
  let r := run_export host input_path output_path w in
  In (StandaloneUninitialize, e) (raised (trace r)) ->
  exit r = toplevel (Raise e : Py.res unit) /\
  (raised (trace r) = [(StandaloneUninitialize, e)] ->
   exists l, stdout r = [l] /\
             (is_success_line l \/ l = error_line no_mesh_msg)).
Proof.
  cbv zeta. unfold run_export, exec. cbn [exit trace stdout].
  destruct (export_to_obj_run host input_path output_path w)
    as (res & He & Hr & Hp). cbn zeta in *. rewrite He, Hp. clear He Hp.
  rewrite PyFacts.raised_app, raised_uninit.
  intros Hin. apply in_app_or in Hin.
  destruct Hin as [Hin|Hin].
  { apply (PyFacts.raised_emits
             (fun c => negb (is_initialize c || is_uninitialize c))) in Hin;
      [discriminate|apply try_body_emits]. }
  destruct res as [u|e']; [destruct Hin|].
  destruct Hin as [[= ->]|[]]. rewrite Hr. split; [reflexivity|].
  destruct (obj_try_body_cases host input_path output_path w)
    as [meshes parents z Hres Hls Hrel Hpr Hra Htr Hlen Hsel Hsz Hex
       |Hres Hls Hpr Hra Hsel Hex
       |c e' Hres Hpr Hra];
    rewrite Hres, Hra, Hpr; cbn [isinstance_Exception app].
  - intros _. eexists. split; [reflexivity|]. left.
    now exists (List.length meshes), output_path, z.
  - intros _. eexists. split; [reflexivity|]. now right.
  - intros [=].
Qed.

(** X15: a call of [export_to_obj] ends normally exactly when no host
    call raised, the tear-down included, and [cmds.ls] answered a
    non-empty list. *)
Theorem obj_exit_zero_iff (input_path output_path : string) (w : W) :
  let r := run_export host input_path output_path w in
  exit r = Finished <->
  raised (trace r) = [] /\
  exists meshes, ls_answers (trace r) = [meshes] /\ meshes <> [].
Proof.
  cbv zeta. unfold run_export, exec. cbn [exit trace].
  destruct (export_to_obj_run host input_path output_path w)
    as (res & He & Hr & _). cbn zeta in *. rewrite He.
  rewrite PyFacts.raised_app, raised_uninit.
  unfold ls_answers. rewrite (answers_uninit ls_answer) by reflexivity.
  destruct (obj_try_body_cases host input_path output_path w)
    as [meshes parents z Hres Hls Hrel Hpr Hra Htr Hlen Hsel Hsz Hex
       |Hres Hls Hpr Hra Hsel Hex
       |c e Hres Hpr Hra];
    rewrite Hres in Hr; rewrite Hra; unfold ls_answers in *.
  - rewrite Hls. destruct res as [u|e'].
    + rewrite Hr. split; [intros _|reflexivity].
      split; [reflexivity|]. exists meshes. split; [reflexivity|].
      now destruct meshes.
    + rewrite Hr. split; [destruct e'; discriminate|intros [[=] _]].
  - rewrite Hls. destruct res as [u|e']; rewrite Hr.
    + split; [discriminate|]. intros [_ (m & [= <-] & Hm)]. now destruct Hm.
    + split; [destruct e'; discriminate|intros [[=] _]].
  - destruct res as [u|e']; rewrite Hr.
    + split; [destruct (isinstance_Exception e), e; discriminate|].
      intros [[=] _].
    + split; [destruct e'; discriminate|intros [[=] _]].
Qed.

(** *** The output lines *)

(** X16: every line the OBJ exporter writes to standard output is made
    of printable ASCII characters only, for every exception message and
    output path whose characters have codes below 256 (the strings of
    this development); code points from 256 on are not covered. *)
Theorem obj_stdout_printable (argv : list string) (w : W) :
  Forall (fun l => one_line l = true) (stdout (run_script host argv w)).
Proof.
  unfold run_script, exec. cbn [stdout].
  pose proof (main_run host argv w) as R.
  destruct (host StandaloneInitialize w) as [[a|e0] w'].
  2:{ rewrite R. constructor. }
  destruct (getitem argv 1) as [i|e1];
    [destruct (getitem argv 2) as [o|e2]|]; rewrite R;
    try constructor.
  unfold after. cbn [printed app].
  destruct (export_to_obj_run host i o w') as (res & _ & _ & ->).
  destruct (obj_try_body_cases host i o w')
    as [meshes parents z Hres Hls Hrel Hpr Hra Htr Hlen Hsel Hsz Hex
       |Hres Hls Hpr Hra Hsel Hex
       |c e Hres Hpr Hra];
    rewrite Hres, Hpr; cbn [isinstance_Exception app];
    try destruct (isinstance_Exception e);
    repeat constructor;
    auto using JsonFacts.error_line_one_line,
               JsonFacts.success_line_one_line.
Qed.

End ObjMore.

(** ** These properties on the reference hosts *)

Lemma glb_main_arguments_witness :
  4 <= List.length Blender.blender_argv /\
  Blender.script_args Blender.blender_argv = ["in.blend"; "out.glb"] /\
  Blender.run_script (Blender.sim Blender.cube_file) Blender.blender_argv []
    = Blender.run_export (Blender.sim Blender.cube_file)
        "in.blend" "out.glb" [].
Proof.
  assert (H4 : 4 <= List.length Blender.blender_argv) by (cbn; lia).
  split; [exact H4|]. split; [reflexivity|].
  exact (glb_main_arguments (Blender.sim Blender.cube_file)
           Blender.blender_argv [] "in.blend" "out.glb" [] H4 eq_refl).
Defined.

Lemma glb_success_record_witness :
  Py.exit (Blender.run_export (Blender.sim Blender.cube_file)
             "in.blend" "out.glb" []) = Py.Finished /\
  exists earlier objs z,
    Blender.scene_answers
      (Py.trace (Blender.run_export (Blender.sim Blender.cube_file)
                   "in.blend" "out.glb" []))
      = (earlier ++ [objs])%list /\
    Py.answers Blender.getsize_answer
      (Py.trace (Blender.run_export (Blender.sim Blender.cube_file)
                   "in.blend" "out.glb" [])) = [z] /\
    Py.count_calls Blender.is_export
      (Py.trace (Blender.run_export (Blender.sim Blender.cube_file)
                   "in.blend" "out.glb" [])) = 1 /\
    Py.stdout (Blender.run_export (Blender.sim Blender.cube_file)
                 "in.blend" "out.glb" [])
      = [success_line (Blender.count_mesh objs) "out.glb" z].
Proof.
  split; [reflexivity|].
  apply (glb_success_record (Blender.sim Blender.cube_file)
           "in.blend" "out.glb" []).
  reflexivity.
Defined.

Lemma glb_size_failure_after_export_witness :
  In (Blender.OsPathGetsize "out.glb",
      Py.Exc "FileNotFoundError" "No such file: out.glb")
     (Py.raised (Py.trace (Blender.run_export Blender.size_fails
                             "in.blend" "out.glb" []))) /\
  (exists pre a,
     Py.trace (Blender.run_export Blender.size_fails
                 "in.blend" "out.glb" []) =
       (pre ++ [Py.Ev (Blender.ExportGltf (Blender.gltf_options "out.glb"))
                  (Py.Ret a);
                Py.Ev (Blender.OsPathGetsize "out.glb")
                  (Py.Raise (Py.Exc "FileNotFoundError"
                               "No such file: out.glb"))])%list /\
     Py.raised pre = []) /\
  Py.stdout (Blender.run_export Blender.size_fails "in.blend" "out.glb" [])
    = [error_line "No such file: out.glb"] /\
  Py.exit (Blender.run_export Blender.size_fails "in.blend" "out.glb" [])
    = Py.Exited 1.
Proof.
  assert (Hin : In (Blender.OsPathGetsize "out.glb",
                    Py.Exc "FileNotFoundError" "No such file: out.glb")
                   (Py.raised
                      (Py.trace (Blender.run_export Blender.size_fails
                                   "in.blend" "out.glb" []))))
    by (vm_compute; left; reflexivity).
  split; [exact Hin|].
  exact (glb_size_failure_after_export Blender.size_fails
           "in.blend" "out.glb" [] _ _ Hin eq_refl eq_refl).
Defined.

Lemma obj_no_mesh_witness :
  Maya.ls_answers
    (Py.trace (Maya.run_export (Maya.sim Maya.no_shapes)
                 "in.mb" "out.obj" [])) = [[]] /\
  exists a res,
    Py.trace (Maya.run_export (Maya.sim Maya.no_shapes)
                "in.mb" "out.obj" []) =
      [Py.Ev (Maya.FileOpen "in.mb" true) (Py.Ret a);
       Py.Ev (Maya.Ls "mesh") (Py.Ret []);
       Py.Ev Maya.StandaloneUninitialize res] /\
    Py.stdout (Maya.run_export (Maya.sim Maya.no_shapes)
                 "in.mb" "out.obj" []) = [error_line no_mesh_msg] /\
    (Py.raised (Py.trace (Maya.run_export (Maya.sim Maya.no_shapes)
                            "in.mb" "out.obj" [])) = [] ->
     Py.exit (Maya.run_export (Maya.sim Maya.no_shapes)
                "in.mb" "out.obj" []) = Py.Exited 1).
Proof.
  split; [reflexivity|].
  apply (obj_no_mesh (Maya.sim Maya.no_shapes) "in.mb" "out.obj" []).
  reflexivity.
Defined.

Lemma obj_teardown_failure_witness :
  In (Maya.StandaloneUninitialize,
      Py.Exc "RuntimeError" "Error: shutdown failed")
     (Py.raised (Py.trace (Maya.run_export Maya.uninitialize_fails
                             "in.mb" "out.obj" []))) /\
  Py.exit (Maya.run_export Maya.uninitialize_fails "in.mb" "out.obj" [])
    = Py.Uncaught (Py.Exc "RuntimeError" "Error: shutdown failed") /\
  exists l,
    Py.stdout (Maya.run_export Maya.uninitialize_fails
                 "in.mb" "out.obj" []) = [l] /\
    is_success_line l.
Proof.
  assert (Hin : In (Maya.StandaloneUninitialize,
                    Py.Exc "RuntimeError" "Error: shutdown failed")
                   (Py.raised
                      (Py.trace (Maya.run_export Maya.uninitialize_fails
                                   "in.mb" "out.obj" []))))
    by (vm_compute; auto).
  split; [exact Hin|].
  destruct (obj_teardown_failure Maya.uninitialize_fails
              "in.mb" "out.obj" [] _ Hin) as [Hexit Hout].
  split; [exact Hexit|].
  destruct (Hout eq_refl) as (l & Hl & [Hs|He]).
  - exists l. split; [exact Hl | exact Hs].
  - exfalso. rewrite He in Hl. vm_compute in Hl. discriminate Hl.
Defined.
